(** * provider-kops: the reconciliation core, embedded and verified

    A shallow embedding of [internal/util] (the state comparator, the
    credential issuer, the validator reduction) and of the [external]
    client of [internal/controller/kops] (Connect, Observe, Create, Update,
    Delete).

    Conventions of the embedding:
    - Go [string] is [string]; [[]byte] is [list Byte.byte];
      [time.Duration] is a 64-bit signed count of nanoseconds, kept as a
      [Z] with the wrap-around of its arithmetic written out.
    - A Go [map[string]string] is [option (gmap string string)]: [None] is
      the nil map, which reads like the empty one but is not deeply equal
      to it.
    - A Go [(T, error)] result is a [result T]; a lone [error] is an
      [option error] with [None] for nil.
    - Pointer arguments that a function writes through live in a heap
      ([gmap loc _]), so that aliasing is visible.
    - Calls to the collaborators (clientset, key store, cloud, provisioning
      engine) are commands answered by an environment that owns a state of
      its own; every call is recorded, with its answer, in a trace. *)

From Stdlib Require Import ZArith Lia.
From stdpp Require Import base option list strings gmap fin_maps.

Local Open Scope Z_scope.
Local Open Scope string_scope.

(** ** Errors *)

(** [errors.New] / [fmt.Errorf] build a leaf; [errors.Wrap err tag] keeps its
    cause and prefixes the text with the tag. *)
Inductive error : Type :=
| New (msg : string)
| Wrap (cause : error) (tag : string).

Fixpoint Error (e : error) : string :=
  match e with
  | New msg => msg
  | Wrap cause tag => tag ++ ": " ++ Error cause
  end.

Inductive result (A : Type) : Type :=
| Ok (a : A)
| Err (e : error).
Arguments Ok {A} a.
Arguments Err {A} e.

(** [strings.Contains s substr] *)
Fixpoint strings_Contains (s substr : string) : bool :=
  String.prefix substr s ||
  match s with
  | EmptyString => false
  | String _ s' => strings_Contains s' substr
  end.

(** [ErrNotFound]: the loose classifier, a substring test on the text. *)
Definition ErrNotFound (err : error) : bool :=
  strings_Contains (Error err) "not found".

(** The stage tags of the controller. *)
Definition errNotKops := "managed resource is not a Kops custom resource".
Definition errTrackPCUsage := "cannot track ProviderConfig usage".
Definition errNewClient := "cannot create new Service".
Definition errDeleteCluster := "cannot delete Kops cluster from API".
Definition errNewCluster := "cannot create Kops cluster".
Definition errNewClusterState := "cannot create Kops cluster state".
Definition errNewInstanceGroupState := "cannot create Kops instance group state".
Definition errNewCloud := "cannot create Kops cloud".
Definition errNewCloudAssignment := "cannot assign Kops cloud".
Definition errGetCluster := "cannot get Kops cluster from API".
Definition errGetInstanceGroup := "cannot get Kops instance group from API".
Definition errValidateCluster := "cannot validate Kops cluster".
Definition errEvaluateClusterState := "cannot evaluate Kops cluster state".
Definition errGetKubeConfig := "cannot get KubeConfig".
Definition errGetClusterStatus := "cannot get Kops cluster status".
Definition errUpdateCluster := "cannot update Kops cluster".
Definition errUpdateClusterState := "cannot update Kops cluster state".
Definition errDeleteResources := "cannot delete Kops resources".

(** ** Durations *)

Definition Duration := Z.

Definition wrap64 (z : Z) : Z := (z + 2 ^ 63) mod 2 ^ 64 - 2 ^ 63.

(** [time.Hour], in nanoseconds *)
Definition Hour : Duration := 3600000000000.

(** [a * b] on [time.Duration] *)
Definition Duration_mul (a b : Duration) : Duration := wrap64 (a * b).

(** ** Validation results ([k8s.io/kops/pkg/validation]) *)

Definition ConditionStatus := string.
Definition ConditionTrue : ConditionStatus := "True".
Definition ConditionFalse : ConditionStatus := "False".
Definition ConditionUnknown : ConditionStatus := "Unknown".

Record ValidationError := { Message : string }.
Record ValidationNode := { Hostname : string; Status : ConditionStatus }.
Record ValidationCluster :=
  { Failures : list ValidationError; Nodes : list ValidationNode }.

Definition nodeMessage (node : ValidationNode) : string :=
  "node " ++ Hostname node ++ " condition is " ++ Status node.

(** The two [range] loops of [EvaluateKopsValidationResult], threading the
    pair [(result, errorMessages)] the way the Go locals are updated. *)
Fixpoint appendFailures (failures : list ValidationError)
    (errorMessages : list string) : list string :=
  match failures with
  | [] => errorMessages
  | failure :: rest => appendFailures rest (errorMessages ++ [Message failure])%list
  end.

Fixpoint checkNodes (nodes : list ValidationNode)
    (acc : bool * list string) : bool * list string :=
  match nodes with
  | [] => acc
  | node :: rest =>
      if String.eqb (Status node) ConditionFalse
      then checkNodes rest (false, (acc.2 ++ [nodeMessage node])%list)
      else checkNodes rest acc
  end.

Definition EvaluateKopsValidationResult (validation : ValidationCluster)
    : bool * list string :=
  let failures := Failures validation in
  let acc :=
    if (0 <? length failures)%nat
    then (false, appendFailures failures [])
    else (true, []) in
  checkNodes (Nodes validation) acc.

(** ** Cluster and instance-group objects ([k8s.io/kops/pkg/apis/kops]) *)

Definition go_map := option (gmap string string).

(** [m[k]] on a [map[string]string]: the zero value when the key, or the
    map, is absent. *)
Definition go_index (m : go_map) (k : string) : string :=
  default "" (m ≫= (.!! k)).

Definition instanceGroupLabel := "kops.k8s.io/instancegroup".

(** addresses of the objects a pointer argument may designate *)
Abbreviation loc := nat (only parsing).

Section Objects.
(** The fields of [ClusterSpec] and [InstanceGroupSpec] the code never
    names are kept as one component each.  [reflect.DeepEqual] on them is
    structural equality: they are built from strings, integers, booleans
    and pointers, slices and maps of those. *)
Context {ClusterRest IGRest : Type}.
Context `{!EqDecision ClusterRest, !EqDecision IGRest}.

Record ClusterSpec := mkClusterSpec
  { ConfigBase : string;
    MasterPublicName : string;
    clusterRest : ClusterRest }.

Record Cluster := mkCluster
  { cluster_Name : string;
    cluster_Spec : ClusterSpec }.

Record InstanceGroupSpec := mkInstanceGroupSpec
  { NodeLabels : go_map;
    igRest : IGRest }.

Record InstanceGroup := mkInstanceGroup
  { ig_Name : string;
    ig_Spec : InstanceGroupSpec }.

Record InstanceGroupList := mkInstanceGroupList
  { Items : list InstanceGroup }.

#[global] Instance ClusterSpec_eq_dec : EqDecision ClusterSpec.
Proof. solve_decision. Defined.
#[global] Instance InstanceGroupSpec_eq_dec : EqDecision InstanceGroupSpec.
Proof. solve_decision. Defined.

(** [reflect.DeepEqual] at the two types it is used at. *)
Definition DeepEqual_ClusterSpec (a b : ClusterSpec) : bool :=
  bool_decide (a = b).
Definition DeepEqual_InstanceGroupSpec (a b : InstanceGroupSpec) : bool :=
  bool_decide (a = b).

(** *** The state comparator *)


(** [ClusterResourceUpToDate(old, new *ClusterSpec)]: both arguments are
    pointers; the two assignments go through [new].  A pointer outside
    the heap is a nil dereference ([None]). *)
Definition ClusterResourceUpToDate (old new : loc)
    (h : gmap loc ClusterSpec) : option (bool * gmap loc ClusterSpec) :=
  n ← h !! new;
  let h1 := <[new := mkClusterSpec "" (MasterPublicName n) (clusterRest n)]> h in
  n1 ← h1 !! new;
  let h2 := <[new := mkClusterSpec (ConfigBase n1) "" (clusterRest n1)]> h1 in
  o ← h2 !! old;
  n2 ← h2 !! new;
  Some (DeepEqual_ClusterSpec o n2, h2).

(** an observed spec with its two server-derived fields emptied *)
Definition clearDerived (n : ClusterSpec) : ClusterSpec :=
  mkClusterSpec "" "" (clusterRest n).

(** a spec with the two server-derived fields set *)
Definition withDerived (s : ClusterSpec) (configBase masterPublicName : string)
    : ClusterSpec :=
  mkClusterSpec configBase masterPublicName (clusterRest s).

Definition igLabel (s : InstanceGroupSpec) : string :=
  go_index (NodeLabels s) instanceGroupLabel.

(** The inner [range new.Items] loop; [false] is the early [return false]. *)
Fixpoint matchesObserved (oldInstance : InstanceGroupSpec)
    (items : list InstanceGroup) : bool :=
  match items with
  | [] => true
  | newInstance :: rest =>
      if String.eqb (igLabel oldInstance) (igLabel (ig_Spec newInstance))
      then
        if negb (DeepEqual_InstanceGroupSpec oldInstance (ig_Spec newInstance))
        then false
        else matchesObserved oldInstance rest
      else matchesObserved oldInstance rest
  end.

Fixpoint InstanceGroupListResourceUpToDate (old : list InstanceGroupSpec)
    (new : InstanceGroupList) : bool :=
  match old with
  | [] => true
  | oldInstance :: rest =>
      if matchesObserved oldInstance (Items new)
      then InstanceGroupListResourceUpToDate rest new
      else false
  end.

End Objects.

Arguments ClusterSpec : clear implicits.
Arguments Cluster : clear implicits.
Arguments InstanceGroupSpec : clear implicits.
Arguments InstanceGroup : clear implicits.
Arguments InstanceGroupList : clear implicits.

(** ** Conditions of a managed resource ([crossplane-runtime], [xpv1]) *)

Record Condition := mkCondition
  { cond_Type : string;
    cond_Status : ConditionStatus;
    cond_Reason : string }.

Definition TypeReady := "Ready".

Definition Available : Condition := mkCondition TypeReady ConditionTrue "Available".
Definition Creating : Condition := mkCondition TypeReady ConditionFalse "Creating".
Definition Deleting : Condition := mkCondition TypeReady ConditionFalse "Deleting".

(** [ConditionedStatus.SetConditions] with one argument: a condition of the
    same type is replaced in place, otherwise the new one is appended. *)
Definition SetConditions (c : Condition) (s : list Condition) : list Condition :=
  if existsb (fun existing => String.eqb (cond_Type existing) (cond_Type c)) s
  then map (fun existing =>
              if String.eqb (cond_Type existing) (cond_Type c)
              then c else existing) s
  else (s ++ [c])%list.

(** ** The managed resource ([apis/kops/v1alpha1]) *)

Definition bytes := list Byte.byte.

Section Resource.
Context {ClusterRest IGRest : Type}.

Record KopsParameters := mkKopsParameters
  { kp_ClusterSpec : ClusterSpec ClusterRest;
    kp_InstanceGroupSpec : list (InstanceGroupSpec IGRest);
    kp_Domain : string;
    kp_StateBucket : string;
    kp_Region : string;
    kp_KubernetesAPICertificateTTL : Duration }.

(** [ExternalName] is what [meta.GetExternalName] reads off the object;
    [Conditions] is [Status.ConditionedStatus]. *)
Record Kops := mkKops
  { ExternalName : string;
    ForProvider : KopsParameters;
    Conditions : list Condition }.

(** [resource.Managed] is an interface: the value handed to the client
    is a [*v1alpha1.Kops] or something else. *)
Inductive Managed : Type :=
| MgKops (cr : Kops)
| MgOther.

Definition withConditions (cr : Kops) (cs : list Condition) : Kops :=
  mkKops (ExternalName cr) (ForProvider cr) cs.

(** [fmt.Sprintf("%v.%v", meta.GetExternalName(cr), cr.Spec.ForProvider.Domain)] *)
Definition clusterIdentity (cr : Kops) : string :=
  ExternalName cr ++ "." ++ kp_Domain (ForProvider cr).

Definition CreateClusterSpec (cr : Kops) : Cluster ClusterRest :=
  let clusterSpec := kp_ClusterSpec (ForProvider cr) in
  let clusterSpec :=
    mkClusterSpec
      (kp_StateBucket (ForProvider cr) ++ "/" ++ ExternalName cr ++ "."
         ++ kp_Domain (ForProvider cr))
      (MasterPublicName clusterSpec) (clusterRest clusterSpec) in
  mkCluster (clusterIdentity cr) clusterSpec.

Definition CreateInstanceGroupSpec (cr : InstanceGroupSpec IGRest)
    : InstanceGroup IGRest :=
  mkInstanceGroup (go_index (NodeLabels cr) instanceGroupLabel) cr.
End Resource.

Arguments KopsParameters : clear implicits.
Arguments Kops : clear implicits.
Arguments Managed : clear implicits.

(** ** What the client returns to the reconciler ([managed]) *)

Definition ConnectionDetails := option (gmap string bytes).

Record ExternalObservation := mkObservation
  { ResourceExists : bool;
    ResourceUpToDate : bool;
    obs_ConnectionDetails : ConnectionDetails }.

(** the zero value but for [ResourceExists], which the code always spells *)
Definition notObserved : ExternalObservation := mkObservation false false None.

Definition ResourceCredentialsSecretKubeconfigKey := "kubeconfig".

(** ** Credentials ([pki], [kubeconfig], [rest], [clientcmd/api]) *)

Record pkix_Name := { CommonName : string; Organization : list string }.

Record IssueCertRequest := mkIssueCertRequest
  { Signer : string;
    req_Type : string;
    Subject : pkix_Name;
    Validity : Duration }.

Record KubeconfigBuilder := mkBuilder
  { kb_Context : string;
    kb_Server : string;
    kb_CACerts : bytes;
    kb_ClientCert : bytes;
    kb_ClientKey : bytes }.

Record rest_Config := mkRestConfig
  { Host : string; CAData : bytes; CertData : bytes; KeyData : bytes }.

Record api_Cluster := { Server : string; CertificateAuthorityData : bytes }.
Record api_Context := { ctx_Cluster : string; ctx_AuthInfo : string }.
Record api_AuthInfo := { ClientCertificateData : bytes; ClientKeyData : bytes }.

Record api_Config := mkApiConfig
  { APIVersion : string;
    Kind : string;
    Clusters : gmap string api_Cluster;
    Contexts : gmap string api_Context;
    CurrentContext : string;
    AuthInfos : gmap string api_AuthInfo }.

(** ** The collaborators *)

(** The opaque handles and the well-known constants of the kops and
    client-go libraries. *)
Class Library := mkLibrary
  { KeyStore : Type;
    Keyset : Type;
    Certificate : Type;
    PrivateKey : Type;
    Clientset_k8s : Type;
    Cloud : Type;
    ClusterValidator : Type;
    ClusterStatus : Type;
    ResourceSet : Type;
    CertificateIDCA : string;
    SystemPrivilegedGroup : string;
    GroupVersion_String : string;
    TargetDirect : string }.

Section Calls.
Context {ClusterRest IGRest : Type} `{Library}.

#[local] Abbreviation Cluster := (Cluster ClusterRest).
#[local] Abbreviation InstanceGroup := (InstanceGroup IGRest).
#[local] Abbreviation InstanceGroupList := (InstanceGroupList IGRest).

Record ApplyClusterCmd := mkApplyClusterCmd
  { cmd_Cloud : Cloud;
    cmd_Cluster : Cluster;
    cmd_TargetName : string }.

(** One constructor per external call of the source, indexed by what the
    call gives back.  [PerformAssignments] writes through its cluster
    pointer, so it gives back the cluster as it leaves it. *)
Inductive Call : Type -> Type :=
| GetCluster (name : string) : Call (result Cluster)
| CreateCluster (c : Cluster) : Call (result Cluster)
| UpdateCluster (c : Cluster) (status : ClusterStatus) : Call (result Cluster)
| DeleteCluster (c : Cluster) : Call (option error)
| InstanceGroups_List (c : Cluster) : Call (result InstanceGroupList)
| InstanceGroups_Create (c : Cluster) (ig : InstanceGroup)
    : Call (result InstanceGroup)
| InstanceGroups_Update (c : Cluster) (ig : InstanceGroup)
    : Call (result InstanceGroup)
| Clientset_KeyStore (c : Cluster) : Call (result KeyStore)
| FindKeyset (ks : KeyStore) (id : string) : Call (result (option Keyset))
| ToCertificateBytes (k : Keyset) : Call (result bytes)
| IssueCert (req : IssueCertRequest) (ks : KeyStore)
    : Call (result (Certificate * PrivateKey))
| Certificate_AsBytes (c : Certificate) : Call (result bytes)
| PrivateKey_AsBytes (k : PrivateKey) : Call (result bytes)
| BuildRestConfig (b : KubeconfigBuilder) : Call (result rest_Config)
| NewForConfig (config : rest_Config) : Call (result Clientset_k8s)
| BuildCloud (c : Cluster) : Call (result Cloud)
| NewClusterValidator (c : Cluster) (cloud : Cloud) (igs : InstanceGroupList)
    (url : string) (k8s : Clientset_k8s) : Call (result ClusterValidator)
| Validate (v : ClusterValidator) : Call (result ValidationCluster)
| clientcmd_Write (kc : api_Config) : Call (result bytes)
| PerformAssignments (c : Cluster) (cloud : Cloud)
    : Call (option error * Cluster)
| ApplyClusterCmd_Run (cmd : ApplyClusterCmd) : Call (option error)
| FindClusterStatus (cloud : Cloud) (c : Cluster) : Call (result ClusterStatus)
| ListResources (cloud : Cloud) (c : Cluster) (region : string)
    : Call (result ResourceSet)
| DeleteResources (cloud : Cloud) (rs : ResourceSet) : Call (option error).

(** A call together with its answer. *)
Inductive Event : Type :=
| Ev {R : Type} (c : Call R) (r : R).

(** The environment answers a call from its own state and moves on. *)
Definition Env (Backend : Type) : Type :=
  forall R : Type, Call R -> Backend -> R * Backend.

(** *** Reading a trace *)

(** the validity asked of the certificate issuer *)
Definition issuedValidity (ev : Event) : option Duration :=
  match ev with
  | Ev c _ =>
      match c with
      | IssueCert req _ => Some (Validity req)
      | _ => None
      end
  end.

(** calls that write to the backend's records or to the cloud's resources *)
Definition isWrite (ev : Event) : bool :=
  match ev with
  | Ev c _ =>
      match c with
      | CreateCluster _ | UpdateCluster _ _ | DeleteCluster _
      | InstanceGroups_Create _ _ | InstanceGroups_Update _ _
      | DeleteResources _ _ => true
      | _ => false
      end
  end.

Definition isCreateCluster (ev : Event) : bool :=
  match ev with
  | Ev c _ => match c with CreateCluster _ => true | _ => false end
  end.

Definition isCreateInstanceGroup (ev : Event) : bool :=
  match ev with
  | Ev c _ => match c with InstanceGroups_Create _ _ => true | _ => false end
  end.
End Calls.

Arguments Call ClusterRest IGRest {_} _.
Arguments Event ClusterRest IGRest {_}.
Arguments Env ClusterRest IGRest {_} Backend.
Arguments ApplyClusterCmd ClusterRest {_}.

(** ** The monad of the client: a store, and the trace of calls made *)

Section Monad.
Context {ClusterRest IGRest : Type} `{Library} {Backend : Type}.

Record Store := mkStore
  { managed : Managed ClusterRest IGRest;
    backend : Backend }.

Definition M (A : Type) : Type :=
  Store -> A * Store * list (Event ClusterRest IGRest).

Definition ret {A} (a : A) : M A := fun s => (a, s, []).

Definition bind {A B} (m : M A) (k : A -> M B) : M B :=
  fun s =>
    let '(a, s1, t1) := m s in
    let '(b, s2, t2) := k a s1 in
    (b, s2, (t1 ++ t2)%list).

Definition call (env : Env ClusterRest IGRest Backend) {R} (c : Call ClusterRest IGRest R)
    : M R :=
  fun s =>
    let '(r, b) := env R c (backend s) in
    (r, mkStore (managed s) b, [Ev c r]).

Definition getManaged : M (Managed ClusterRest IGRest) :=
  fun s => (managed s, s, []).

Definition putManaged (mg : Managed ClusterRest IGRest) : M unit :=
  fun s => (tt, mkStore mg (backend s), []).

Definition valueOf {A} (o : A * Store * list (Event ClusterRest IGRest)) : A := o.1.1.
Definition storeOf {A} (o : A * Store * list (Event ClusterRest IGRest)) : Store := o.1.2.
Definition eventsOf {A} (o : A * Store * list (Event ClusterRest IGRest))
  : list (Event ClusterRest IGRest) := o.2.
End Monad.

Arguments Store ClusterRest IGRest Backend : clear implicits.
Arguments M ClusterRest IGRest {_} Backend A.

Declare Scope go_scope.
Delimit Scope go_scope with go.
Notation "x <- m ;; k" := (bind m (fun x => k))
  (at level 100, m at next level, right associativity) : go_scope.

(** ** [internal/util]: credentials, validation, kubeconfig *)

Section Client.
Context {ClusterRest IGRest : Type}.
Context `{!EqDecision ClusterRest, !EqDecision IGRest}.
Context `{Library} {Backend : Type}.
Variable env : Env ClusterRest IGRest Backend.

#[local] Abbreviation M' := (M ClusterRest IGRest Backend).
#[local] Open Scope go_scope.

(** the default of [GetKubeconfigFromKopsState]: a zero ttl becomes [18] *)
Definition resolveTTL (kubernetesAPICertificateTTL : Duration) : Duration :=
  if (kubernetesAPICertificateTTL =? 0)%Z then 18 else kubernetesAPICertificateTTL.

Definition GetKubeconfigFromKopsState (kopsCluster : Cluster ClusterRest)
    (kubernetesAPICertificateTTL : Duration) : M' (result rest_Config) :=
  r <- call env (Clientset_KeyStore kopsCluster) ;;
  match r with
  | Err err => ret (Err err)
  | Ok keyStore =>
  let context := cluster_Name kopsCluster in
  let server := "https://api." ++ cluster_Name kopsCluster in
  r <- call env (FindKeyset keyStore CertificateIDCA) ;;
  match r with
  | Err err => ret (Err err)
  | Ok None => ret (Err (New "cannot find CA certificate"))
  | Ok (Some keySet) =>
  r <- call env (ToCertificateBytes keySet) ;;
  match r with
  | Err err => ret (Err err)
  | Ok caCerts =>
  let kubernetesAPICertificateTTL := resolveTTL kubernetesAPICertificateTTL in
  let req :=
    mkIssueCertRequest CertificateIDCA "client"
      {| CommonName := "kops-operator";
         Organization := [SystemPrivilegedGroup] |}
      (Duration_mul kubernetesAPICertificateTTL Hour) in
  r <- call env (IssueCert req keyStore) ;;
  match r with
  | Err err => ret (Err err)
  | Ok (cert, privateKey) =>
  r <- call env (Certificate_AsBytes cert) ;;
  match r with
  | Err err => ret (Err err)
  | Ok clientCert =>
  r <- call env (PrivateKey_AsBytes privateKey) ;;
  match r with
  | Err err => ret (Err err)
  | Ok clientKey =>
  r <- call env (BuildRestConfig
                   (mkBuilder context server caCerts clientCert clientKey)) ;;
  match r with
  | Err err => ret (Err err)
  | Ok config => ret (Ok config)
  end end end end end end end.

Definition ValidateKopsCluster (kopsCluster : Cluster ClusterRest)
    (igs : InstanceGroupList IGRest) (kubernetesAPICertificateTTL : Duration)
    : M' (result ValidationCluster) :=
  r <- GetKubeconfigFromKopsState kopsCluster kubernetesAPICertificateTTL ;;
  match r with
  | Err err => ret (Err err)
  | Ok config =>
  r <- call env (NewForConfig config) ;;
  match r with
  | Err err => ret (Err err)
  | Ok k8sClient =>
  r <- call env (BuildCloud kopsCluster) ;;
  match r with
  | Err err => ret (Err err)
  | Ok cloud =>
  r <- call env (NewClusterValidator kopsCluster cloud igs
                   ("https://api." ++ cluster_Name kopsCluster ++ ":443")
                   k8sClient) ;;
  match r with
  | Err err =>
      ret (Err (New ("unexpected error creating validator: " ++ Error err)))
  | Ok validator =>
  r <- call env (Validate validator) ;;
  match r with
  | Err err => ret (Err (New (Error err)))
  | Ok result => ret (Ok result)
  end end end end end.

Definition GenerateKubeConfig (kopsCluster : Cluster ClusterRest)
    (kubernetesAPICertificateTTL : Duration) : M' (result bytes) :=
  r <- GetKubeconfigFromKopsState kopsCluster kubernetesAPICertificateTTL ;;
  match r with
  | Err err => ret (Err err)
  | Ok config =>
  let clusterName := cluster_Name kopsCluster in
  let kc :=
    mkApiConfig GroupVersion_String "Cluster"
      {[ clusterName :=
           {| Server := Host config;
              CertificateAuthorityData := CAData config |} ]}
      {[ clusterName :=
           {| ctx_Cluster := clusterName; ctx_AuthInfo := clusterName |} ]}
      (cluster_Name kopsCluster)
      {[ clusterName :=
           {| ClientCertificateData := CertData config;
              ClientKeyData := KeyData config |} ]} in
  r <- call env (clientcmd_Write kc) ;;
  match r with
  | Err err => ret (Err (Wrap err "failed to serialize config to yaml"))
  | Ok out => ret (Ok out)
  end end.

Definition GetClusterStatus (kopsCluster : Cluster ClusterRest) (cloud : Cloud)
    : M' (result ClusterStatus) :=
  r <- call env (FindClusterStatus cloud kopsCluster) ;;
  match r with
  | Err err => ret (Err err)
  | Ok status => ret (Ok status)
  end.

(** ** [internal/controller/kops]: the external client *)

(** [fmt.Errorf("%s", res)] on a [[]string]: the elements between brackets,
    separated by spaces. *)
Definition formatMessages (res : list string) : string :=
  "[" ++ String.concat " " res ++ "]".

(** The comparison as [Observe] calls it: [&cr.Spec.ForProvider.ClusterSpec]
    and [&cluster.Spec] are two distinct objects, here at addresses 0 and 1.
    The result is the boolean and the desired spec as the call leaves it. *)
Definition compareWithObserved (desired observed : ClusterSpec ClusterRest)
    : bool * ClusterSpec ClusterRest :=
  match ClusterResourceUpToDate 0%nat 1%nat (<[1%nat := observed]> {[0%nat := desired]}) with
  | Some (upToDate, h) => (upToDate, default desired (h !! 0%nat))
  | None => (false, desired)
  end.

Definition withClusterSpec (cr : Kops ClusterRest IGRest)
    (spec : ClusterSpec ClusterRest) : Kops ClusterRest IGRest :=
  let p := ForProvider cr in
  mkKops (ExternalName cr)
    (mkKopsParameters spec (kp_InstanceGroupSpec p) (kp_Domain p)
       (kp_StateBucket p) (kp_Region p) (kp_KubernetesAPICertificateTTL p))
    (Conditions cr).

Definition Observe : M' (ExternalObservation * option error) :=
  mg <- getManaged ;;
  match mg with
  | MgOther => ret (mkObservation false false None, Some (New errNotKops))
  | MgKops cr =>
  r <- call env (GetCluster (clusterIdentity cr)) ;;
  match r with
  | Err err =>
      if ErrNotFound err
      then ret (notObserved, None)
      else ret (notObserved, Some (Wrap err errGetCluster))
  | Ok cluster =>
  r <- call env (InstanceGroups_List cluster) ;;
  match r with
  | Err err => ret (notObserved, Some (Wrap err errGetInstanceGroup))
  | Ok ig =>
  r <- ValidateKopsCluster cluster ig
         (kp_KubernetesAPICertificateTTL (ForProvider cr)) ;;
  match r with
  | Err err => ret (notObserved, Some (Wrap err errValidateCluster))
  | Ok validate =>
  let (ok, res) := EvaluateKopsValidationResult validate in
  if negb ok
  then ret (notObserved,
            Some (Wrap (New (formatMessages res)) errEvaluateClusterState))
  else
  r <- GenerateKubeConfig cluster
         (kp_KubernetesAPICertificateTTL (ForProvider cr)) ;;
  match r with
  | Err err => ret (notObserved, Some (Wrap err errGetKubeConfig))
  | Ok kubeconfig =>
  let conn : ConnectionDetails :=
    Some {[ ResourceCredentialsSecretKubeconfigKey := kubeconfig ]} in
  let cr := withConditions cr (SetConditions Available (Conditions cr)) in
  let (clusterUpToDate, desired) :=
    compareWithObserved (kp_ClusterSpec (ForProvider cr)) (cluster_Spec cluster) in
  _ <- putManaged (MgKops (withClusterSpec cr desired)) ;;
  ret (mkObservation true
         (clusterUpToDate &&
          InstanceGroupListResourceUpToDate
            (kp_InstanceGroupSpec (ForProvider cr)) ig)
         conn, None)
  end end end end end.

Record ExternalCreation := { creation_ConnectionDetails : ConnectionDetails }.
Record ExternalUpdate := { update_ConnectionDetails : ConnectionDetails }.

(** [managed.ExternalCreation{}] and the one with an empty, non-nil map *)
Definition noCreation : ExternalCreation := {| creation_ConnectionDetails := None |}.
Definition emptyCreation : ExternalCreation :=
  {| creation_ConnectionDetails := Some ∅ |}.
Definition noUpdate : ExternalUpdate := {| update_ConnectionDetails := None |}.
Definition emptyUpdate : ExternalUpdate := {| update_ConnectionDetails := Some ∅ |}.

(** The [range cr.Spec.ForProvider.InstanceGroupSpec] loop of [Create];
    [Some] is the early return, already wrapped. *)
Fixpoint createInstanceGroups (cluster : Cluster ClusterRest)
    (igs : list (InstanceGroupSpec IGRest)) : M' (option error) :=
  match igs with
  | [] => ret None
  | ig :: rest =>
      r <- call env (InstanceGroups_Create cluster (CreateInstanceGroupSpec ig)) ;;
      match r with
      | Err err => ret (Some (Wrap err errNewInstanceGroupState))
      | Ok _ => createInstanceGroups cluster rest
      end
  end.

Definition Create : M' (ExternalCreation * option error) :=
  mg <- getManaged ;;
  match mg with
  | MgOther => ret (noCreation, Some (New errNotKops))
  | MgKops cr =>
  r <- call env (CreateCluster (CreateClusterSpec cr)) ;;
  match r with
  | Err err => ret (noCreation, Some (Wrap err errNewClusterState))
  | Ok cluster =>
  r <- createInstanceGroups cluster (kp_InstanceGroupSpec (ForProvider cr)) ;;
  match r with
  | Some err => ret (noCreation, Some err)
  | None =>
  r <- call env (BuildCloud cluster) ;;
  match r with
  | Err err => ret (noCreation, Some (Wrap err errNewCloud))
  | Ok cloud =>
  r <- call env (PerformAssignments cluster cloud) ;;
  let (err, cluster) := r in
  match err with
  | Some err => ret (noCreation, Some (Wrap err errNewCloudAssignment))
  | None =>
  let applyCmd := mkApplyClusterCmd cloud cluster TargetDirect in
  err <- call env (ApplyClusterCmd_Run applyCmd) ;;
  match err with
  | Some err => ret (noCreation, Some (Wrap err errNewCluster))
  | None =>
  _ <- putManaged (MgKops (withConditions cr (SetConditions Creating (Conditions cr)))) ;;
  ret (emptyCreation, None)
  end end end end end end.

(** The [range] loop of [Update]. *)
Fixpoint updateInstanceGroups (clusterToUpdate : Cluster ClusterRest)
    (igs : list (InstanceGroupSpec IGRest)) : M' (option error) :=
  match igs with
  | [] => ret None
  | ig :: rest =>
      r <- call env (InstanceGroups_Update clusterToUpdate
                       (CreateInstanceGroupSpec ig)) ;;
      match r with
      | Err err => ret (Some (Wrap err errNewInstanceGroupState))
      | Ok _ => updateInstanceGroups clusterToUpdate rest
      end
  end.

Definition Update : M' (ExternalUpdate * option error) :=
  mg <- getManaged ;;
  match mg with
  | MgOther => ret (noUpdate, Some (New errNotKops))
  | MgKops cr =>
  let cluster := CreateClusterSpec cr in
  r <- call env (BuildCloud cluster) ;;
  match r with
  | Err err => ret (noUpdate, Some (Wrap err errNewCloud))
  | Ok cloud =>
  r <- call env (PerformAssignments cluster cloud) ;;
  let (err, cluster) := r in
  match err with
  | Some err => ret (noUpdate, Some (Wrap err errNewCloudAssignment))
  | None =>
  r <- GetClusterStatus cluster cloud ;;
  match r with
  | Err err => ret (noUpdate, Some (Wrap err errGetClusterStatus))
  | Ok status =>
  r <- call env (UpdateCluster cluster status) ;;
  match r with
  | Err err => ret (noUpdate, Some (Wrap err errUpdateClusterState))
  | Ok clusterToUpdate =>
  r <- updateInstanceGroups clusterToUpdate
         (kp_InstanceGroupSpec (ForProvider cr)) ;;
  match r with
  | Some err => ret (noUpdate, Some err)
  | None =>
  let applyCmd := mkApplyClusterCmd cloud clusterToUpdate TargetDirect in
  err <- call env (ApplyClusterCmd_Run applyCmd) ;;
  match err with
  | Some err => ret (noUpdate, Some (Wrap err errUpdateCluster))
  | None => ret (emptyUpdate, None)
  end end end end end end end.

Definition Delete : M' (option error) :=
  mg <- getManaged ;;
  match mg with
  | MgOther => ret (Some (New errNotKops))
  | MgKops cr =>
  r <- call env (GetCluster (clusterIdentity cr)) ;;
  match r with
  | Err err => ret (Some (Wrap err errGetCluster))
  | Ok cluster =>
  r <- call env (BuildCloud cluster) ;;
  match r with
  | Err err => ret (Some (Wrap err errDeleteCluster))
  | Ok cloud =>
  r <- call env (ListResources cloud cluster (kp_Region (ForProvider cr))) ;;
  match r with
  | Err err => ret (Some err)
  | Ok allResources =>
  err <- call env (DeleteResources cloud allResources) ;;
  match err with
  | Some err => ret (Some (Wrap err errDeleteResources))
  | None =>
  err <- call env (DeleteCluster cluster) ;;
  match err with
  | Some err => ret (Some (Wrap err errDeleteCluster))
  | None =>
  _ <- putManaged (MgKops (withConditions cr (SetConditions Deleting (Conditions cr)))) ;;
  ret None
  end end end end end end.

End Client.

(** ** Reading outcomes *)

Definition conditionsOf {ClusterRest IGRest : Type}
    (mg : Managed ClusterRest IGRest) : list Condition :=
  match mg with
  | MgKops cr => Conditions cr
  | MgOther => []
  end.

(** the successful instance-group creations for [igs], answered by [created] *)
Definition groupCreations {ClusterRest IGRest : Type} `{Library}
    (cluster : Cluster ClusterRest) (igs : list (InstanceGroupSpec IGRest))
    (created : list (InstanceGroup IGRest)) : list (Event ClusterRest IGRest) :=
  zip_with
    (fun ig a => Ev (InstanceGroups_Create cluster (CreateInstanceGroupSpec ig)) (Ok a))
    igs created.

(** the tags an error of the four operations can be wrapped with *)
Definition stageTags : list string :=
  [ errDeleteCluster; errNewCluster; errNewClusterState;
    errNewInstanceGroupState; errNewCloud; errNewCloudAssignment;
    errGetCluster; errGetInstanceGroup; errValidateCluster;
    errEvaluateClusterState; errGetKubeConfig; errGetClusterStatus;
    errUpdateCluster; errUpdateClusterState; errDeleteResources ].

Definition tagged (e : error) : bool :=
  match e with
  | Wrap _ tag => bool_decide (tag ∈ stageTags)
  | New _ => false
  end.

(** ** Sets of label values *)

(** The label values as the code reads them: a group without the label, or
    without any label map, counts with the value [""]. *)
Definition labelValues {IGRest : Type} (l : list (InstanceGroupSpec IGRest))
    : gset string :=
  list_to_set (igLabel <$> l).

(** The label values that are there: a group without the label contributes
    nothing. *)
Definition presentLabelValues {IGRest : Type} (l : list (InstanceGroupSpec IGRest))
    : gset string :=
  list_to_set (omap (fun s => NodeLabels s ≫= (.!! instanceGroupLabel)) l).

(** ** A scripted environment and sample objects

    The collaborators as a counter of calls: every call succeeds with a
    canned answer, except the one numbered [failAt], which fails with [e].
    Handles are [unit]; the unnamed fields of the specs are a number. *)

Definition sampleLibrary : Library :=
  mkLibrary unit unit unit unit unit unit unit unit unit
    "kubernetes-ca" "system:masters" "cluster.x-k8s.io/v1beta1" "direct".

Definition scriptedEnv (observed : Cluster nat) (groups : InstanceGroupList nat)
    (health : ValidationCluster) (failAt : option nat) (e : error)
    : @Env nat nat sampleLibrary nat :=
  fun R c n =>
    let fail := bool_decide (failAt = Some n) in
    let answer {A} (a : A) : result A := if fail then Err e else Ok a in
    let report : option error := if fail then Some e else None in
    (match c in @Call _ _ _ R return R with
     | GetCluster _ => answer observed
     | CreateCluster c => answer c
     | UpdateCluster c _ => answer c
     | DeleteCluster _ => report
     | InstanceGroups_List _ => answer groups
     | InstanceGroups_Create _ ig => answer ig
     | InstanceGroups_Update _ ig => answer ig
     | Clientset_KeyStore _ => answer tt
     | FindKeyset _ _ => answer (Some tt)
     | ToCertificateBytes _ => answer []
     | IssueCert _ _ => answer (tt, tt)
     | Certificate_AsBytes _ => answer []
     | PrivateKey_AsBytes _ => answer []
     | BuildRestConfig b =>
         answer (mkRestConfig (kb_Server b) (kb_CACerts b)
                   (kb_ClientCert b) (kb_ClientKey b))
     | NewForConfig _ => answer tt
     | BuildCloud _ => answer tt
     | NewClusterValidator _ _ _ _ _ => answer tt
     | Validate _ => answer health
     | clientcmd_Write _ => answer []
     | PerformAssignments c _ => (report, c)
     | ApplyClusterCmd_Run _ => report
     | FindClusterStatus _ _ => answer tt
     | ListResources _ _ _ => answer tt
     | DeleteResources _ _ => report
     end, S n).

Definition masterGroup : InstanceGroupSpec nat :=
  mkInstanceGroupSpec (Some {[ instanceGroupLabel := "master" ]}) 1%nat.
Definition nodesGroup : InstanceGroupSpec nat :=
  mkInstanceGroupSpec (Some {[ instanceGroupLabel := "nodes" ]}) 1%nat.

(** two groups without the instance-group label: one with no label map at
    all, one with another label only; their other fields differ *)
Definition unlabelledGroup : InstanceGroupSpec nat :=
  mkInstanceGroupSpec None 1%nat.
Definition roleOnlyGroup : InstanceGroupSpec nat :=
  mkInstanceGroupSpec (Some {[ "kops.k8s.io/instance-role" := "Node" ]}) 2%nat.

Definition sampleSpec : ClusterSpec nat := mkClusterSpec "" "" 1%nat.

Definition sampleKops : Kops nat nat :=
  mkKops "a"
    (mkKopsParameters sampleSpec [masterGroup; nodesGroup]
       "example.com" "s3://state" "us-east-1" 0)
    [].

(** what the backend stores for [sampleKops] once created *)
Definition storedCluster : Cluster nat :=
  mkCluster "a.example.com"
    (mkClusterSpec "s3://state/a.example.com" "api.a.example.com" 1%nat).


Definition storedGroups : InstanceGroupList nat :=
  mkInstanceGroupList
    [CreateInstanceGroupSpec masterGroup; CreateInstanceGroupSpec nodesGroup].

Definition healthy : ValidationCluster :=
  {| Failures := [];
     Nodes := [ {| Hostname := "ip-172-20-32-1"; Status := ConditionTrue |} ] |}.

Definition sampleStore : Store nat nat nat := mkStore (MgKops sampleKops) 0%nat.

(** the backend of [sampleKops] in good health, and the same with the call
    numbered [n] failing with [e] *)
Definition healthyEnv : @Env nat nat sampleLibrary nat :=
  scriptedEnv storedCluster storedGroups healthy None (New "unused").

Definition failingEnv (n : nat) (e : error) : @Env nat nat sampleLibrary nat :=
  scriptedEnv storedCluster storedGroups healthy (Some n) e.

(** the two objects [Observe] compares, on a heap: the desired spec at 0,
    the stored one at 1 *)
Definition sampleHeap : gmap loc (ClusterSpec nat) :=
  <[1%nat := cluster_Spec storedCluster]> {[ 0%nat := sampleSpec ]}.

(** a desired spec in which the user wrote the config base himself *)
Definition ownBaseSpec : ClusterSpec nat :=
  mkClusterSpec "s3://state/a.example.com" "" 1%nat.

Definition ownBaseHeap : gmap loc (ClusterSpec nat) :=
  <[1%nat := withDerived ownBaseSpec "s3://state/a.example.com" "api.a.example.com"]>
    {[ 0%nat := ownBaseSpec ]}.

(** ** [GetKopsClientset] and [Connect] *)

(** [strings.LastIndex s substr]: the index of the last occurrence, [-1]
    when there is none. *)
Fixpoint strings_LastIndex (s substr : string) : Z :=
  match s with
  | EmptyString => if String.prefix substr s then 0 else -1
  | String _ s' =>
      let later := strings_LastIndex s' substr in
      if (0 <=? later)%Z then later + 1
      else if String.prefix substr s then 0 else -1
  end.

(** [s[:i]]; out of range the slice expression panics ([None]). *)
Definition slice_to (s : string) (i : Z) : option string :=
  if ((0 <=? i) && (i <=? Z.of_nat (String.length s)))%Z
  then Some (String.substring 0 (Z.to_nat i) s)
  else None.

(** [util.FactoryOptions], the one field the code sets *)
Record FactoryOptions := { RegistryPath : string }.

(** the registry path [GetKopsClientset] hands to the factory *)
Definition registryPathOf (stateBucket clusterName domain : string)
    : option string :=
  let configBase := stateBucket ++ "/" ++ clusterName ++ "." ++ domain in
  let lastIndex := strings_LastIndex configBase "/" in
  slice_to configBase lastIndex.

(** what [Connect] calls, in order *)
Inductive ConnectStep : Type :=
| CalledTrack
| CalledClientset (opts : FactoryOptions).

Section Connector.
Context {ClusterRest IGRest Clientset Backend : Type}.

(** [c.usage.Track] and [factory.Clientset], answered from the backend *)
Variable Track : Managed ClusterRest IGRest -> Backend -> option error * Backend.
Variable Factory_Clientset : FactoryOptions -> Backend -> result Clientset * Backend.

(** [None] is the panic of the slice expression. *)
Definition GetKopsClientset (stateBucket clusterName domain : string)
    (b : Backend) : option (result Clientset * Backend * list ConnectStep) :=
  registryPath ← registryPathOf stateBucket clusterName domain;
  let factoryOptions := {| RegistryPath := registryPath |} in
  let '(r, b) := Factory_Clientset factoryOptions b in
  match r with
  | Err err => Some (Err err, b, [CalledClientset factoryOptions])
  | Ok kopsClientset => Some (Ok kopsClientset, b, [CalledClientset factoryOptions])
  end.

(** The external client [Connect] returns is its clientset. *)
Definition Connect (mg : Managed ClusterRest IGRest) (b : Backend)
    : option (result Clientset * Backend * list ConnectStep) :=
  match mg with
  | MgOther => Some (Err (New errNotKops), b, [])
  | MgKops cr =>
      let '(err, b) := Track mg b in
      match err with
      | Some err => Some (Err (Wrap err errTrackPCUsage), b, [CalledTrack])
      | None =>
          '(r, b, steps) ←
            GetKopsClientset (kp_StateBucket (ForProvider cr)) (ExternalName cr)
              (kp_Domain (ForProvider cr)) b;
          match r with
          | Err err => Some (Err (Wrap err errNewClient), b, CalledTrack :: steps)
          | Ok kopsClientset => Some (Ok kopsClientset, b, CalledTrack :: steps)
          end
      end
  end.
End Connector.

(** ** More readers of a trace *)

Definition resultError {A} (r : result A) : option error :=
  match r with Ok _ => None | Err e => Some e end.

Section Readers.
Context {ClusterRest IGRest : Type} `{Library}.

(** the error a call answered with, if it failed *)
Definition failure (ev : Event ClusterRest IGRest) : option error :=
  match ev with
  | Ev c r =>
      match c in Call _ _ R return R -> option error with
      | GetCluster _ => resultError
      | CreateCluster _ => resultError
      | UpdateCluster _ _ => resultError
      | DeleteCluster _ => fun r => r
      | InstanceGroups_List _ => resultError
      | InstanceGroups_Create _ _ => resultError
      | InstanceGroups_Update _ _ => resultError
      | Clientset_KeyStore _ => resultError
      | FindKeyset _ _ => resultError
      | ToCertificateBytes _ => resultError
      | IssueCert _ _ => resultError
      | Certificate_AsBytes _ => resultError
      | PrivateKey_AsBytes _ => resultError
      | BuildRestConfig _ => resultError
      | NewForConfig _ => resultError
      | BuildCloud _ => resultError
      | NewClusterValidator _ _ _ _ _ => resultError
      | Validate _ => resultError
      | clientcmd_Write _ => resultError
      | PerformAssignments _ _ => fun r => r.1
      | ApplyClusterCmd_Run _ => fun r => r
      | FindClusterStatus _ _ => resultError
      | ListResources _ _ _ => resultError
      | DeleteResources _ _ => fun r => r
      end r
  end.

(** the health data a successful [Validate] call answered with *)
Definition validationOf (ev : Event ClusterRest IGRest) : option ValidationCluster :=
  match ev with
  | Ev c r =>
      match c in Call _ _ R return R -> option ValidationCluster with
      | Validate _ => fun r => match r with Ok v => Some v | Err _ => None end
      | _ => fun _ => None
      end r
  end.

(** the document handed to [clientcmd.Write] *)
Definition writtenConfig (ev : Event ClusterRest IGRest) : option api_Config :=
  match ev with
  | Ev c _ => match c with clientcmd_Write kc => Some kc | _ => None end
  end.

Definition isDelete (ev : Event ClusterRest IGRest) : bool :=
  match ev with
  | Ev c _ =>
      match c with
      | DeleteCluster _ | DeleteResources _ _ => true
      | _ => false
      end
  end.

Definition isValidatorConstruction (ev : Event ClusterRest IGRest) : bool :=
  match ev with
  | Ev c _ => match c with NewClusterValidator _ _ _ _ _ => true | _ => false end
  end.

Definition isDeleteCluster (ev : Event ClusterRest IGRest) : bool :=
  match ev with
  | Ev c _ => match c with DeleteCluster _ => true | _ => false end
  end.

Definition isUpdateCluster (ev : Event ClusterRest IGRest) : bool :=
  match ev with
  | Ev c _ => match c with UpdateCluster _ _ => true | _ => false end
  end.

Definition isUpdateInstanceGroup (ev : Event ClusterRest IGRest) : bool :=
  match ev with
  | Ev c _ => match c with InstanceGroups_Update _ _ => true | _ => false end
  end.

(** the successful instance-group updates for [igs], answered by [updated] *)
Definition groupUpdates (cluster : Cluster ClusterRest)
    (igs : list (InstanceGroupSpec IGRest)) (updated : list (InstanceGroup IGRest))
    : list (Event ClusterRest IGRest) :=
  zip_with
    (fun ig a => Ev (InstanceGroups_Update cluster (CreateInstanceGroupSpec ig)) (Ok a))
    igs updated.
End Readers.

(** ** More sample objects *)

(** the backend of [sampleKops] with its CA key set gone *)
Definition noCAEnv : @Env nat nat sampleLibrary nat :=
  fun R c n =>
    match c in @Call _ _ _ R return R * nat with
    | FindKeyset _ _ => (Ok None, S n)
    | c => healthyEnv _ c n
    end.

(** one structural failure and one node that is not ready *)
Definition degraded : ValidationCluster :=
  {| Failures := [ {| Message := "machine i-0abc has not yet joined cluster" |} ];
     Nodes := [ {| Hostname := "ip-172-20-32-1"; Status := ConditionTrue |};
                {| Hostname := "ip-172-20-32-2"; Status := ConditionFalse |} ] |}.

Definition degradedEnv : @Env nat nat sampleLibrary nat :=
  scriptedEnv storedCluster storedGroups degraded None (New "unused").

(** * Properties *)

(** ** The validator reduction *)

Lemma appendFailures_app (failures : list ValidationError) (acc : list string) :
  appendFailures failures acc = (acc ++ map Message failures)%list.
Proof.
  revert acc. induction failures as [|f fs IH]; intros acc; simpl.
  - by rewrite app_nil_r.
  - rewrite IH. by rewrite <- app_assoc.
Qed.

Lemma checkNodes_closed_form (nodes : list ValidationNode) (ok : bool)
    (msgs : list string) :
  checkNodes nodes (ok, msgs) =
    (ok && forallb (fun n => negb (String.eqb (Status n) ConditionFalse)) nodes,
     (msgs ++ map nodeMessage
               (filter (fun n => Status n = ConditionFalse) nodes))%list).
Proof.
  revert ok msgs. induction nodes as [|n ns IH]; intros ok msgs; simpl.
  - by rewrite andb_true_r, app_nil_r.
  - destruct (String.eqb_spec (Status n) ConditionFalse) as [Heq|Hne].
    + rewrite IH. rewrite filter_cons_True by done. simpl.
      rewrite andb_false_r. by rewrite <- app_assoc.
    + rewrite IH. by rewrite filter_cons_False by done.
Qed.

(** C8.  [EvaluateKopsValidationResult] answers [true] exactly when there is
    no failure and no node whose status is exactly ["False"] (a missing or
    unknown status does not count); the messages are those of the failures
    in their order, then one "node <hostname> condition is False" per false
    node in the order of the nodes, nothing removed. *)
Theorem EvaluateKopsValidationResult_reduction (validation : ValidationCluster) :
  ((EvaluateKopsValidationResult validation).1 = true <->
     Failures validation = [] /\
     Forall (fun n => Status n <> ConditionFalse) (Nodes validation)) /\
  (EvaluateKopsValidationResult validation).2 =
    (map Message (Failures validation) ++
     map (fun n => ("node " ++ Hostname n ++ " condition is " ++ "False")%string)
       (filter (fun n => Status n = ConditionFalse) (Nodes validation)))%list.
Proof.
  destruct validation as [failures nodes]. unfold EvaluateKopsValidationResult.
  simpl. split.
  - destruct failures as [|f fs]; simpl.
    + rewrite checkNodes_closed_form. simpl. rewrite forallb_forall, Forall_forall.
      split.
      * intros Hall. split; [done|]. intros n Hn Heq.
        apply list_elem_of_In in Hn. specialize (Hall n Hn).
        rewrite Heq in Hall. discriminate.
      * intros [_ Hall] n Hn. apply list_elem_of_In in Hn.
        destruct (String.eqb_spec (Status n) ConditionFalse); [|done].
        by destruct (Hall n Hn).
    + rewrite checkNodes_closed_form. simpl. split; [discriminate|].
      intros [Hnil _]. discriminate.
  - assert (Hmsg : map nodeMessage (filter (fun n => Status n = ConditionFalse) nodes)
             = map (fun n => ("node " ++ Hostname n ++ " condition is " ++ "False")%string)
                 (filter (fun n => Status n = ConditionFalse) nodes)).
    { apply map_ext_in. intros n Hn. apply list_elem_of_In, list_elem_of_filter in Hn.
      destruct Hn as [Heq _]. unfold nodeMessage. by rewrite Heq. }
    destruct failures as [|f fs]; simpl.
    + rewrite checkNodes_closed_form. simpl. by rewrite Hmsg.
    + rewrite checkNodes_closed_form. simpl. rewrite appendFailures_app. simpl.
      by rewrite Hmsg.
Qed.

(** ** The state comparator *)

Section Comparator.
Context {ClusterRest IGRest : Type}.
Context `{!EqDecision ClusterRest, !EqDecision IGRest}.

Implicit Types (h : gmap loc (ClusterSpec ClusterRest)).
Implicit Types (s o n : ClusterSpec ClusterRest).

(** What one call does to the heap, whether or not the pointers alias. *)
Lemma ClusterResourceUpToDate_eval h (old new : loc) n :
  h !! new = Some n ->
  ClusterResourceUpToDate old new h =
    (o ← <[new := clearDerived n]> h !! old;
     Some (DeepEqual_ClusterSpec o (clearDerived n), <[new := clearDerived n]> h)).
Proof.
  intros Hn. unfold ClusterResourceUpToDate. rewrite Hn. simpl.
  rewrite lookup_insert_eq. simpl. rewrite insert_insert_eq.
  rewrite lookup_insert_eq.
  destruct (<[new:=_]> h !! old) as [o|] eqn:Ho; simpl; [|done].
  done.
Qed.

(** On two distinct objects: the desired one is read, the observed one is
    replaced by its cleared copy. *)
Lemma ClusterResourceUpToDate_distinct h (old new : loc) o n :
  old <> new ->
  h !! old = Some o ->
  h !! new = Some n ->
  ClusterResourceUpToDate old new h =
    Some (DeepEqual_ClusterSpec o (clearDerived n), <[new := clearDerived n]> h).
Proof.
  intros Hne Ho Hn. rewrite (ClusterResourceUpToDate_eval h old new n Hn).
  rewrite lookup_insert_ne by done. by rewrite Ho.
Qed.

(** C4, as the code has it.  Called on two distinct objects,
    [ClusterResourceUpToDate] leaves the desired spec and every other object
    as they were, and overwrites the observed spec: its config base and its
    master public name become empty, its other fields stay. *)
Theorem ClusterResourceUpToDate_frame h (old new : loc) o n :
  old <> new ->
  h !! old = Some o ->
  h !! new = Some n ->
  exists h',
    ClusterResourceUpToDate old new h =
      Some (DeepEqual_ClusterSpec o (clearDerived n), h') /\
    h' !! old = Some o /\
    h' !! new = Some (mkClusterSpec "" "" (clusterRest n)) /\
    forall l, l <> new -> h' !! l = h !! l.
Proof.
  intros Hne Ho Hn. exists (<[new := clearDerived n]> h).
  split; [by apply ClusterResourceUpToDate_distinct|]. repeat split.
  - by rewrite lookup_insert_ne.
  - by rewrite lookup_insert_eq.
  - intros l Hl. by rewrite lookup_insert_ne.
Qed.

(** C6, as the code has it.  When the desired spec carries no config base
    and no master public name, the comparison with a copy of it whose two
    derived fields were set to anything answers [true]; for two distinct
    objects that condition on the desired spec is also necessary. *)
Theorem ClusterResourceUpToDate_ignores_derived h (old new : loc) s
    (configBase masterPublicName : string) :
  h !! old = Some s ->
  h !! new = Some (withDerived s configBase masterPublicName) ->
  (ConfigBase s = "" /\ MasterPublicName s = "" ->
     exists h', ClusterResourceUpToDate old new h = Some (true, h')) /\
  (old <> new ->
     forall h', ClusterResourceUpToDate old new h = Some (true, h') ->
       ConfigBase s = "" /\ MasterPublicName s = "").
Proof.
  intros Ho Hn. rewrite (ClusterResourceUpToDate_eval h old new _ Hn). split.
  - intros [Hcb Hmpn]. eexists.
    destruct (decide (old = new)) as [->|Hne].
    + rewrite lookup_insert_eq. simpl. unfold DeepEqual_ClusterSpec.
      by rewrite bool_decide_eq_true_2.
    + rewrite lookup_insert_ne by done. rewrite Ho. simpl.
      unfold DeepEqual_ClusterSpec. rewrite bool_decide_eq_true_2; [done|].
      destruct s as [cb mpn r]; simpl in *; subst. done.
  - intros Hne h'. rewrite lookup_insert_ne by done. rewrite Ho. simpl.
    intros Heq. inversion Heq as [[Hb Hh]].
    apply bool_decide_eq_true_1 in Hb. rewrite Hb. done.
Qed.

Implicit Types (old : list (InstanceGroupSpec IGRest)).
Implicit Types (new : InstanceGroupList IGRest).

Lemma matchesObserved_true (oldInstance : InstanceGroupSpec IGRest)
    (items : list (InstanceGroup IGRest)) :
  matchesObserved oldInstance items = true <->
  forall newInstance, newInstance ∈ items ->
    igLabel oldInstance = igLabel (ig_Spec newInstance) ->
    oldInstance = ig_Spec newInstance.
Proof.
  induction items as [|x items IH]; simpl.
  - split; [|done]. intros _ y Hy. by apply elem_of_nil in Hy.
  - destruct (String.eqb_spec (igLabel oldInstance) (igLabel (ig_Spec x)))
      as [Hlab|Hlab].
    + unfold DeepEqual_InstanceGroupSpec. case_bool_decide as Heq; simpl.
      * rewrite IH. split.
        -- intros Hall y Hy Hl. apply elem_of_cons in Hy as [->|Hy]; auto.
        -- intros Hall y Hy. apply Hall. by apply elem_of_cons; right.
      * split; [discriminate|]. intros Hall. destruct Heq.
        apply Hall; [by apply elem_of_cons; left|done].
    + rewrite IH. split.
      * intros Hall y Hy Hl. apply elem_of_cons in Hy as [->|Hy]; auto.
        by destruct Hlab.
      * intros Hall y Hy. apply Hall. by apply elem_of_cons; right.
Qed.

Lemma InstanceGroupListResourceUpToDate_true old new :
  InstanceGroupListResourceUpToDate old new = true <->
  forall oldInstance newInstance,
    oldInstance ∈ old -> newInstance ∈ Items new ->
    igLabel oldInstance = igLabel (ig_Spec newInstance) ->
    oldInstance = ig_Spec newInstance.
Proof.
  induction old as [|x old IH]; simpl.
  - split; [|done]. intros _ y z Hy. by apply elem_of_nil in Hy.
  - destruct (matchesObserved x (Items new)) eqn:Hm.
    + rewrite IH. rewrite matchesObserved_true in Hm. split.
      * intros Hall y z Hy. apply elem_of_cons in Hy as [->|Hy]; auto.
      * intros Hall y z Hy. apply Hall. by apply elem_of_cons; right.
    + split; [discriminate|]. intros Hall.
      assert (matchesObserved x (Items new) = true) as Hm'; [|congruence].
      apply matchesObserved_true. intros z Hz. apply Hall; [|done].
      by apply elem_of_cons; left.
Qed.

(** C5, as the code has it.  Desired and observed lists whose sets of
    instance-group label values as the code reads them (the empty string for
    a group without the label, so that unlabelled groups on both sides do
    share a value) are disjoint are up to date whatever their contents; in
    general the answer depends on the label-matched pairs alone: it is
    [true] exactly when every such pair is deeply equal. *)
Theorem InstanceGroupListResourceUpToDate_label_matched old new :
  (labelValues old ## labelValues (ig_Spec <$> Items new) ->
     InstanceGroupListResourceUpToDate old new = true) /\
  (InstanceGroupListResourceUpToDate old new = true <->
     forall oldInstance newInstance,
       oldInstance ∈ old -> newInstance ∈ Items new ->
       igLabel oldInstance = igLabel (ig_Spec newInstance) ->
       DeepEqual_InstanceGroupSpec oldInstance (ig_Spec newInstance) = true).
Proof.
  split.
  - intros Hdisj. apply InstanceGroupListResourceUpToDate_true.
    intros o n Ho Hn Hlab. exfalso.
    apply (Hdisj (igLabel o)); unfold labelValues; rewrite elem_of_list_to_set.
    + apply list_elem_of_fmap. by exists o.
    + rewrite Hlab. apply list_elem_of_fmap. exists (ig_Spec n). split; [done|].
      apply list_elem_of_fmap. by exists n.
  - rewrite InstanceGroupListResourceUpToDate_true.
    unfold DeepEqual_InstanceGroupSpec. split.
    + intros Hall o n Ho Hn Hl. apply bool_decide_eq_true_2. auto.
    + intros Hall o n Ho Hn Hl. eapply bool_decide_eq_true_1. eauto.
Qed.

End Comparator.

(** C4, refuted as stated: the call is not pure.  On [sampleHeap] the
    observed spec holds a config base and a master public name before the
    call, and two empty strings after it. *)
Lemma ClusterResourceUpToDate_overwrites_observed :
  exists b h',
    ClusterResourceUpToDate 0%nat 1%nat sampleHeap = Some (b, h') /\
    ConfigBase <$> sampleHeap !! 1%nat = Some "s3://state/a.example.com" /\
    ConfigBase <$> h' !! 1%nat = Some "" /\
    MasterPublicName <$> sampleHeap !! 1%nat = Some "api.a.example.com" /\
    MasterPublicName <$> h' !! 1%nat = Some "" /\
    h' !! 1%nat <> sampleHeap !! 1%nat.
Proof.
  eexists _, _. split.
  - by apply (ClusterResourceUpToDate_distinct sampleHeap 0%nat 1%nat
                sampleSpec (cluster_Spec storedCluster)).
  - rewrite lookup_insert_eq. repeat split; done.
Qed.

Lemma ClusterResourceUpToDate_frame_witness :
  exists h',
    ClusterResourceUpToDate 0%nat 1%nat sampleHeap = Some (true, h') /\
    h' !! 0%nat = Some sampleSpec /\
    h' !! 1%nat = Some (mkClusterSpec "" "" 1%nat) /\
    forall l, l <> 1%nat -> h' !! l = sampleHeap !! l.
Proof.
  exact (ClusterResourceUpToDate_frame sampleHeap 0%nat 1%nat
           sampleSpec (cluster_Spec storedCluster)
           ltac:(discriminate) eq_refl eq_refl).
Defined.

(** C6, refuted as stated: a desired spec that names its own config base is
    never up to date, not even against a copy of itself. *)
Lemma ClusterResourceUpToDate_own_config_base :
  exists h', ClusterResourceUpToDate 0%nat 1%nat ownBaseHeap = Some (false, h').
Proof.
  eexists.
  by rewrite (ClusterResourceUpToDate_distinct ownBaseHeap 0%nat 1%nat ownBaseSpec
                (withDerived ownBaseSpec "s3://state/a.example.com"
                   "api.a.example.com")).
Qed.

Lemma ClusterResourceUpToDate_ignores_derived_witness :
  (ConfigBase sampleSpec = "" /\ MasterPublicName sampleSpec = "" ->
     exists h', ClusterResourceUpToDate 0%nat 1%nat sampleHeap = Some (true, h')) /\
  (0%nat <> 1%nat ->
     forall h', ClusterResourceUpToDate 0%nat 1%nat sampleHeap = Some (true, h') ->
       ConfigBase sampleSpec = "" /\ MasterPublicName sampleSpec = "").
Proof.
  exact (ClusterResourceUpToDate_ignores_derived sampleHeap 0%nat 1%nat sampleSpec
           "s3://state/a.example.com" "api.a.example.com" eq_refl eq_refl).
Defined.

Lemma InstanceGroupListResourceUpToDate_label_matched_witness :
  labelValues [masterGroup] ##
    labelValues (ig_Spec <$> [mkInstanceGroup "nodes" nodesGroup]) /\
  InstanceGroupListResourceUpToDate [masterGroup]
    (mkInstanceGroupList [mkInstanceGroup "nodes" nodesGroup]) = true.
Proof.
  assert (Hdisj : labelValues [masterGroup] ##
            labelValues (ig_Spec <$> [mkInstanceGroup "nodes" nodesGroup])).
  { unfold labelValues. simpl. intros x H1 H2.
    apply elem_of_union in H1 as [H1|H1]; [|by apply elem_of_empty in H1].
    apply elem_of_union in H2 as [H2|H2]; [|by apply elem_of_empty in H2].
    apply elem_of_singleton in H1, H2. subst x. vm_compute in H2. discriminate. }
  split; [exact Hdisj|].
  exact (proj1 (InstanceGroupListResourceUpToDate_label_matched [masterGroup]
                  (mkInstanceGroupList [mkInstanceGroup "nodes" nodesGroup])) Hdisj).
Defined.

(** C5, refuted as stated.  Neither group carries the instance-group label,
    so the sets of label values of the two lists are empty and disjoint; yet
    the code reads the empty string on both sides, compares the two groups
    and, as they differ, answers [false]. *)
Lemma InstanceGroupListResourceUpToDate_unlabelled_groups :
  presentLabelValues [unlabelledGroup] = ∅ /\
  presentLabelValues (ig_Spec <$> [mkInstanceGroup "" roleOnlyGroup]) = ∅ /\
  presentLabelValues [unlabelledGroup] ##
    presentLabelValues (ig_Spec <$> [mkInstanceGroup "" roleOnlyGroup]) /\
  InstanceGroupListResourceUpToDate [unlabelledGroup]
    (mkInstanceGroupList [mkInstanceGroup "" roleOnlyGroup]) = false.
Proof.
  assert (H1 : presentLabelValues [unlabelledGroup] = ∅) by reflexivity.
  assert (H2 : presentLabelValues (ig_Spec <$> [mkInstanceGroup "" roleOnlyGroup]) = ∅)
    by (vm_compute; reflexivity).
  split; [exact H1|]. split; [exact H2|]. split.
  - rewrite H1. apply disjoint_empty_l.
  - vm_compute. reflexivity.
Qed.

(** ** The client *)

#[local] Arguments ErrNotFound : simpl never.
#[local] Arguments compareWithObserved : simpl never.
#[local] Arguments EvaluateKopsValidationResult : simpl never.
#[local] Arguments SetConditions : simpl never.

(** Symbolic execution: unfold the client's code down to the calls, and case
    on what the environment answers, one call at a time. *)
Ltac unfold_client :=
  unfold Observe, Create, Update, Delete, ValidateKopsCluster,
    GenerateKubeConfig, GetKubeconfigFromKopsState, GetClusterStatus,
    bind, call, ret, getManaged, putManaged, valueOf, storeOf, eventsOf in *.

Ltac answer_call :=
  match goal with
  | |- context [let '(_, _) := ?env ?R ?cmd ?st in _] =>
      is_var env;
      let r := fresh "r" in
      let b' := fresh "b" in
      let Hcall := fresh "Hcall" in
      destruct (env R cmd st) as [r b'] eqn:Hcall; simpl;
      try match type of r with
        | result _ => destruct r as [?a|?err]; simpl
        | option error => destruct r as [?err|]; simpl
        | (option error * _)%type => destruct r as [[?err|] ?cluster]; simpl
        end
  end.

Ltac case_answer :=
  match goal with
  | |- context [match ?x with _ => _ end] => is_var x; destruct x; simpl
  end.

Ltac case_validation :=
  match goal with
  | |- context [EvaluateKopsValidationResult ?v] =>
      let Hev := fresh "Hev" in
      destruct (EvaluateKopsValidationResult v) as [[|] ?res] eqn:Hev; simpl
  end.

Ltac case_not_found :=
  match goal with
  | |- context [ErrNotFound ?e] =>
      let Hnf := fresh "Hnf" in
      destruct (ErrNotFound e) eqn:Hnf; simpl
  end.


Ltac run_client :=
  unfold_client; simpl;
  repeat (answer_call || case_answer || case_validation || case_not_found).

Section ClientProperties.
Context {ClusterRest IGRest : Type}.
Context `{!EqDecision ClusterRest, !EqDecision IGRest}.
Context `{Library} {Backend : Type}.
Variable env : Env ClusterRest IGRest Backend.

Implicit Types (cr : Kops ClusterRest IGRest) (b : Backend).

(** C7.  When fetching the cluster fails, [Observe] reports that the
    resource does not exist; it returns no error when the text of the
    failure contains "not found", and otherwise the failure wrapped with the
    cluster-fetch tag. *)
Theorem Observe_cluster_fetch_failure cr b (err : error) (b' : Backend) :
  env _ (GetCluster (clusterIdentity cr)) b = (Err err, b') ->
  let out := Observe env (mkStore (MgKops cr) b) in
  ResourceExists (valueOf out).1 = false /\
  (valueOf out).2 =
    (if strings_Contains (Error err) "not found"
     then None
     else Some (Wrap err "cannot get Kops cluster from API")).
Proof.
  intros Hget. unfold_client. simpl. rewrite Hget. simpl.
  unfold ErrNotFound. by destruct (strings_Contains (Error err) "not found").
Qed.

Lemma compareWithObserved_eval (desired observed : ClusterSpec ClusterRest) :
  compareWithObserved desired observed =
    (DeepEqual_ClusterSpec desired (clearDerived observed), desired).
Proof.
  unfold compareWithObserved.
  rewrite (ClusterResourceUpToDate_distinct _ 0%nat 1%nat desired observed).
  - rewrite insert_insert_eq, lookup_insert_ne by discriminate.
    by rewrite lookup_singleton_eq.
  - discriminate.
  - rewrite lookup_insert_ne by discriminate. apply lookup_singleton_eq.
  - apply lookup_insert_eq.
Qed.



Lemma Duration_mul_hours (n : Z) :
  -2562047 <= n <= 2562047 -> Duration_mul n Hour = n * Hour.
Proof.
  intros Hn. unfold Duration_mul, wrap64, Hour.
  change (2 ^ 63) with 9223372036854775808.
  change (2 ^ 64) with 18446744073709551616.
  rewrite Z.mod_small by lia. lia.
Qed.

Lemma resolveTTL_range (ttl : Duration) :
  -2562047 <= ttl <= 2562047 -> -2562047 <= resolveTTL ttl <= 2562047.
Proof. unfold resolveTTL. destruct (ttl =? 0)%Z; lia. Qed.

(** C2, as the code has it.  The ttl is read as a number of hours: for a
    ttl between -2562047 and 2562047, every certificate request made by
    [GetKubeconfigFromKopsState] asks for a validity of that many hours, 18
    of them when the ttl is zero; and a configuration is only returned after
    such a request was made. *)
Theorem GetKubeconfigFromKopsState_validity (kopsCluster : Cluster ClusterRest)
    (ttl : Duration) (s : Store ClusterRest IGRest Backend) :
  -2562047 <= ttl <= 2562047 ->
  let out := GetKubeconfigFromKopsState env kopsCluster ttl s in
  let hours := (if (ttl =? 0)%Z then 18 else ttl) in
  (forall ev v, ev ∈ eventsOf out -> issuedValidity ev = Some v ->
     v = hours * Hour) /\
  (forall config, valueOf out = Ok config ->
     exists ev, ev ∈ eventsOf out /\ issuedValidity ev = Some (hours * Hour)).
Proof.
  intros Hrange. pose proof (Duration_mul_hours _ (resolveTTL_range _ Hrange)) as Hmul.
  unfold resolveTTL in Hmul. cbv zeta.
  run_client;
    (split;
     [ intros ev v Hin Hv;
       repeat (apply elem_of_cons in Hin as [->|Hin]);
       try (apply elem_of_nil in Hin; contradiction);
       simpl in Hv; try discriminate;
       injection Hv as <-; exact Hmul
     | intros config Hok;
       first
         [ discriminate
         | eexists; split;
           [ do 3 (apply elem_of_cons; right); apply elem_of_cons; left; reflexivity
           | simpl; f_equal; exact Hmul ] ] ]).
Qed.

(** The loop of [Create]: the groups are created in list order, each once,
    up to and including the first one that fails. *)
Lemma createInstanceGroups_run (cluster : Cluster ClusterRest)
    (igs : list (InstanceGroupSpec IGRest)) (s : Store ClusterRest IGRest Backend) :
  let out := createInstanceGroups env cluster igs s in
  managed (storeOf out) = managed s /\
  match valueOf out with
  | None =>
      exists created,
        length created = length igs /\
        eventsOf out = groupCreations cluster igs created
  | Some e =>
      exists k ig err created,
        igs !! k = Some ig /\ length created = k /\
        e = Wrap err errNewInstanceGroupState /\
        eventsOf out =
          (groupCreations cluster (take k igs) created ++
           [Ev (InstanceGroups_Create cluster (CreateInstanceGroupSpec ig)) (Err err)])%list
  end.
Proof.
  cbv zeta. unfold valueOf, storeOf, eventsOf.
  revert s. induction igs as [|ig igs IH]; intros s.
  - simpl. split; [done|]. by exists [].
  - simpl. unfold bind, call.
    destruct (env _ _ (backend s)) as [[a|err] b'] eqn:Hcall; simpl.
    + specialize (IH (mkStore (managed s) b')).
      destruct (createInstanceGroups env cluster igs (mkStore _ _)) as [[v s1] t1].
      simpl in *. destruct IH as [Hm IH]. split; [done|]. destruct v as [e|].
      * destruct IH as (k & ig' & err & created & Hk & Hlen & -> & ->).
        exists (S k), ig', err, (a :: created). simpl. rewrite Hlen. done.
      * destruct IH as (created & Hlen & ->). exists (a :: created). simpl.
        by rewrite Hlen.
    + split; [done|]. by exists 0%nat, ig, err, [].
Qed.

Lemma groupCreations_writes (cluster : Cluster ClusterRest)
    (igs : list (InstanceGroupSpec IGRest)) (created : list (InstanceGroup IGRest)) :
  Forall (fun ev => isCreateInstanceGroup ev = true /\ isCreateCluster ev = false)
    (groupCreations cluster igs created).
Proof.
  revert created. induction igs as [|ig igs IH]; intros [|a created]; simpl;
    by constructor.
Qed.

Lemma groupCreations_not_CreateCluster (cluster : Cluster ClusterRest)
    (igs : list (InstanceGroupSpec IGRest)) (created : list (InstanceGroup IGRest)) :
  List.filter isCreateCluster (groupCreations cluster igs created) = [].
Proof.
  revert created. induction igs as [|ig igs IH]; intros [|a created]; simpl; auto.
Qed.

(** C9.  [Create] on a Kops resource first issues the cluster-create call,
    and issues it once.  If that call fails nothing else is called.
    Otherwise the instance groups are created in the order of the desired
    list, one call each: either a call fails, and then it is the last call
    of [Create], which returns that failure wrapped; or all groups are
    created and no later call writes to the backend.  Nothing is deleted or
    rolled back in any case. *)
Theorem Create_calls cr b :
  let out := Create env (mkStore (MgKops cr) b) in
  let igs := kp_InstanceGroupSpec (ForProvider cr) in
  length (List.filter isCreateCluster (eventsOf out)) = 1%nat /\
  exists answer rest,
    eventsOf out = Ev (CreateCluster (CreateClusterSpec cr)) answer :: rest /\
    match answer with
    | Err err =>
        rest = [] /\ (valueOf out).2 = Some (Wrap err errNewClusterState)
    | Ok cluster =>
        exists k created after,
          (k <= length igs)%nat /\ length created = k /\
          rest = (groupCreations cluster (take k igs) created ++ after)%list /\
          match igs !! k with
          | Some ig =>
              exists err,
                after = [Ev (InstanceGroups_Create cluster
                               (CreateInstanceGroupSpec ig)) (Err err)] /\
                (valueOf out).2 = Some (Wrap err errNewInstanceGroupState)
          | None => Forall (fun ev => isWrite ev = false) after
          end
    end.
Proof.
  cbv zeta. unfold_client. simpl.
  destruct (env _ (CreateCluster _) b) as [[cluster|err] b1] eqn:Hcreate; simpl.
  2: { split; [done|]. by eexists _, _. }
  pose proof (createInstanceGroups_run cluster (kp_InstanceGroupSpec (ForProvider cr))
                (mkStore (MgKops cr) b1)) as Hrun.
  cbv zeta in Hrun. unfold valueOf, storeOf, eventsOf in Hrun.
  destruct (createInstanceGroups env cluster _ (mkStore _ _)) as [[v s1] t1].
  simpl in *. destruct Hrun as [Hm Hrun]. destruct v as [e|]; simpl.
  - destruct Hrun as (k & ig & err & created & Hk & Hlen & -> & ->). split.
    + rewrite !List.filter_app, groupCreations_not_CreateCluster. done.
    + eexists _, _. split; [done|].
      exists k, created,
        [Ev (InstanceGroups_Create cluster (CreateInstanceGroupSpec ig)) (Err err)].
      split; [apply lookup_lt_Some in Hk; lia|]. split; [done|].
      split; [by rewrite app_nil_r|]. rewrite Hk. by exists err.
  - destruct Hrun as (created & Hlen & ->).
    assert (Hnone : kp_InstanceGroupSpec (ForProvider cr)
                      !! length (kp_InstanceGroupSpec (ForProvider cr)) = None)
      by (by apply lookup_ge_None_2).
    repeat answer_call;
      (split; [by rewrite !List.filter_app, groupCreations_not_CreateCluster|];
       eexists _, _; split; [done|];
       eexists (length (kp_InstanceGroupSpec (ForProvider cr))), created, _;
       split; [done|]; split; [done|]; rewrite firstn_all, Hnone;
       split; [reflexivity|]; repeat constructor).
Qed.

Lemma updateInstanceGroups_run (cluster : Cluster ClusterRest)
    (igs : list (InstanceGroupSpec IGRest)) (s : Store ClusterRest IGRest Backend) :
  let out := updateInstanceGroups env cluster igs s in
  managed (storeOf out) = managed s /\
  forall e, valueOf out = Some e -> tagged e = true.
Proof.
  cbv zeta. unfold valueOf, storeOf, eventsOf.
  revert s. induction igs as [|ig igs IH]; intros s.
  - simpl. split; [done|]. discriminate.
  - simpl. unfold bind, call.
    destruct (env _ _ (backend s)) as [[a|err] b'] eqn:Hcall; simpl.
    + specialize (IH (mkStore (managed s) b')).
      destruct (updateInstanceGroups env cluster igs (mkStore _ _)) as [[v s1] t1].
      simpl in *. done.
    + split; [done|]. by intros e [= <-].
Qed.

(** Step over the loop of [Create] (or of [Update]) with what is known of it. *)
Ltac run_groups :=
  match goal with
  | |- context [createInstanceGroups ?env ?cluster ?igs ?st] =>
      let Hrun := fresh "Hrun" in
      let Hm := fresh "Hm" in
      pose proof (createInstanceGroups_run cluster igs st) as Hrun;
      cbv zeta in Hrun; unfold valueOf, storeOf, eventsOf in Hrun;
      destruct (createInstanceGroups env cluster igs st) as [[[?e|] ?s] ?t];
      simpl in Hrun; destruct Hrun as [Hm Hrun]; simpl
  | |- context [updateInstanceGroups ?env ?cluster ?igs ?st] =>
      let Hrun := fresh "Hrun" in
      let Hm := fresh "Hm" in
      pose proof (updateInstanceGroups_run cluster igs st) as Hrun;
      cbv zeta in Hrun; unfold valueOf, storeOf, eventsOf in Hrun;
      destruct (updateInstanceGroups env cluster igs st) as [[[?e|] ?s] ?t];
      simpl in Hrun; destruct Hrun as [Hm Hrun]; simpl
  end.


(** X28.  Every error [Observe] returns on a Kops resource is wrapped with
    one of the stage tags. *)
Lemma Observe_errors_tagged cr b (e : error) :
  (valueOf (Observe env (mkStore (MgKops cr) b))).2 = Some e -> tagged e = true.
Proof. run_client; intros [= <-]; done. Qed.

(** X29.  Every error [Create] returns on a Kops resource is wrapped with
    one of the stage tags. *)
Lemma Create_errors_tagged cr b (e : error) :
  (valueOf (Create env (mkStore (MgKops cr) b))).2 = Some e -> tagged e = true.
Proof.
  unfold_client; simpl. answer_call; [|by intros [= <-]].
  run_groups.
  - destruct Hrun as (k & ig & err & created & _ & _ & -> & _). by intros [= <-].
  - repeat answer_call; intros [= <-]; done.
Qed.

(** X30.  Every error [Update] returns on a Kops resource is wrapped with
    one of the stage tags. *)
Lemma Update_errors_tagged cr b (e : error) :
  (valueOf (Update env (mkStore (MgKops cr) b))).2 = Some e -> tagged e = true.
Proof.
  unfold_client; simpl. do 4 (answer_call; try by intros [= <-]).
  run_groups.
  - intros [= <-]. by apply Hrun.
  - repeat answer_call; intros [= <-]; done.
Qed.

(** X10.  [Delete] tags every failure but that of listing the resources,
    which it hands back as it got it. *)
Lemma Delete_errors cr b (e : error) :
  let out := Delete env (mkStore (MgKops cr) b) in
  valueOf out = Some e ->
  tagged e = true \/
  exists cloud cluster,
    last (eventsOf out) =
      Some (Ev (ListResources cloud cluster (kp_Region (ForProvider cr))) (Err e)).
Proof.
  cbv zeta. run_client; intros [= <-]; try (by left).
  right. by eexists _, _.
Qed.

End ClientProperties.

(** ** The properties at work on the scripted environment *)


(** C2, refuted as stated.  A ttl of one hour, handed over as the
    [time.Duration] the parameter is declared as, asks for a validity that
    is not one hour; and the ttl 2562048, read as hours, overflows into a
    negative validity. *)
Lemma GetKubeconfigFromKopsState_validity_is_not_ttl :
  omap issuedValidity
    (eventsOf (GetKubeconfigFromKopsState healthyEnv storedCluster Hour sampleStore))
    = [143342396288008192] /\
  143342396288008192 <> Hour /\
  omap issuedValidity
    (eventsOf (GetKubeconfigFromKopsState healthyEnv storedCluster 2562048 sampleStore))
    = [-9223371273709551616] /\
  -9223371273709551616 <> 2562048 /\
  -9223371273709551616 <> 2562048 * Hour.
Proof. repeat split; try (vm_compute; reflexivity); discriminate. Qed.

Lemma GetKubeconfigFromKopsState_validity_witness :
  -2562047 <= 0 <= 2562047 /\
  (let out := GetKubeconfigFromKopsState healthyEnv storedCluster 0 sampleStore in
   (forall ev v, ev ∈ eventsOf out -> issuedValidity ev = Some v ->
      v = 18 * Hour) /\
   (forall config, valueOf out = Ok config ->
      exists ev, ev ∈ eventsOf out /\ issuedValidity ev = Some (18 * Hour))).
Proof.
  split; [lia|].
  apply (GetKubeconfigFromKopsState_validity healthyEnv storedCluster 0 sampleStore).
  lia.
Defined.

Lemma Observe_cluster_fetch_failure_witness :
  (let out :=
     Observe (failingEnv 0 (New "cluster a.example.com not found")) sampleStore in
   ResourceExists (valueOf out).1 = false /\ (valueOf out).2 = None) /\
  (let out := Observe (failingEnv 0 (New "connection refused")) sampleStore in
   ResourceExists (valueOf out).1 = false /\
   (valueOf out).2 =
     Some (Wrap (New "connection refused") "cannot get Kops cluster from API")).
Proof.
  split.
  - exact (Observe_cluster_fetch_failure
             (failingEnv 0 (New "cluster a.example.com not found"))
             sampleKops 0%nat (New "cluster a.example.com not found") 1%nat eq_refl).
  - exact (Observe_cluster_fetch_failure
             (failingEnv 0 (New "connection refused"))
             sampleKops 0%nat (New "connection refused") 1%nat eq_refl).
Defined.

(** C3: the failing input.  [Delete] with the resource listing failing:
    the cluster was fetched and the cloud built, the third call fails with
    "boom", and [Delete] returns exactly that error, without any tag. *)
Theorem Delete_ListResources_failure_untagged :
  let out := Delete (failingEnv 2 (New "boom")) sampleStore in
  valueOf out = Some (New "boom") /\
  tagged (New "boom") = false /\
  last (eventsOf out) =
    Some (Ev (@ListResources nat nat sampleLibrary tt storedCluster "us-east-1")
            (Err (New "boom"))).
Proof. cbv zeta. repeat split; vm_compute; reflexivity. Qed.


(** * Further properties of the code *)

(** ** Strings: the substring test and the last index *)

Lemma string_app_cons (x : Ascii.ascii) (a b : string) :
  String x a ++ b = String x (a ++ b).
Proof. reflexivity. Qed.

Lemma string_app_assoc (a b c : string) : (a ++ b) ++ c = a ++ (b ++ c).
Proof.
  induction a as [|x a IH]; [done|]. rewrite !string_app_cons. by f_equal.
Qed.

Lemma string_app_length (a b : string) :
  String.length (a ++ b) = (String.length a + String.length b)%nat.
Proof.
  induction a as [|x a IH]; [done|]. rewrite string_app_cons. simpl. by f_equal.
Qed.

Lemma prefix_true_iff (sub s : string) :
  String.prefix sub s = true <-> exists q, s = sub ++ q.
Proof.
  revert s. induction sub as [|x sub IH]; intros s.
  - split; [by exists s|]. intros _. by destruct s.
  - destruct s as [|y s]; simpl.
    + split; [discriminate|]. by intros [q [=]].
    + destruct (Ascii.ascii_dec x y) as [->|Hne].
      * rewrite IH. split.
        -- intros [q ->]. by exists q.
        -- intros [q Hq]. rewrite string_app_cons in Hq. injection Hq as ->.
           by exists q.
      * split; [discriminate|]. intros [q Hq]. rewrite string_app_cons in Hq.
        by injection Hq as -> _.
Qed.

(** [strings.Contains] answers [true] exactly when the text splits around
    the substring. *)
Lemma strings_Contains_spec (s sub : string) :
  strings_Contains s sub = true <-> exists p q, s = p ++ sub ++ q.
Proof.
  induction s as [|x s IH].
  - cbn [strings_Contains]. rewrite orb_false_r, prefix_true_iff. split.
    + intros [q Hq]. by exists "", q.
    + intros [[|y p] [q Hq]]; [by exists q|discriminate].
  - cbn [strings_Contains]. rewrite orb_true_iff, prefix_true_iff, IH. split.
    + intros [[q Hq]|(p & q & ->)]; [by exists "", q|by exists (String x p), q].
    + intros ([|y p] & q & Hq); [left; by exists q|].
      right. rewrite string_app_cons in Hq. injection Hq as -> ->. by exists p, q.
Qed.

Lemma strings_Contains_cons (x : Ascii.ascii) (s sub : string) :
  strings_Contains (String x s) sub =
    String.prefix sub (String x s) || strings_Contains s sub.
Proof. reflexivity. Qed.

Lemma strings_LastIndex_absent (q : string) :
  strings_Contains q "/" = false -> strings_LastIndex q "/" = -1.
Proof.
  induction q as [|x q IH]; [done|].
  rewrite strings_Contains_cons. intros [Hp Hq]%orb_false_iff.
  cbn [strings_LastIndex]. rewrite (IH Hq). cbv zeta.
  change (0 <=? -1)%Z with false. cbv iota. by rewrite Hp.
Qed.

Lemma strings_LastIndex_last_slash (p q : string) :
  strings_Contains q "/" = false ->
  strings_LastIndex (p ++ "/" ++ q) "/" = Z.of_nat (String.length p).
Proof.
  intros Hq. induction p as [|x p IH].
  - change ("" ++ "/" ++ q) with ("/" ++ q). rewrite string_app_cons.
    cbn [strings_LastIndex]. change ("" ++ q) with q.
    rewrite (strings_LastIndex_absent q Hq). cbv zeta.
    change (0 <=? -1)%Z with false. cbv iota.
    assert (String.prefix "/" ("/" ++ q) = true) as Hp
      by (apply prefix_true_iff; by exists q).
    rewrite string_app_cons in Hp. change ("" ++ q) with q in Hp. by rewrite Hp.
  - rewrite string_app_cons. cbn [strings_LastIndex]. rewrite IH. cbv zeta.
    destruct (Z.leb_spec 0 (Z.of_nat (String.length p))); [|lia].
    cbn [String.length]. lia.
Qed.

Lemma last_slash_split (s : string) :
  strings_Contains s "/" = false \/
  exists p q, s = p ++ "/" ++ q /\ strings_Contains q "/" = false.
Proof.
  induction s as [|x s IH]; [by left|].
  destruct IH as [Hs|(p & q & -> & Hq)].
  - destruct (String.prefix "/" (String x s)) eqn:Hp.
    + right. apply prefix_true_iff in Hp as [q' Hq'].
      exists "", q'. split; [exact Hq'|].
      rewrite string_app_cons in Hq'. injection Hq' as _ Hq'.
      change ("" ++ q') with q' in Hq'. by subst q'.
    + left. rewrite strings_Contains_cons, Hp, Hs. done.
  - right. by exists (String x p), q.
Qed.

Lemma substring_prefix (p q : string) :
  String.substring 0 (String.length p) (p ++ q) = p.
Proof.
  induction p as [|x p IH].
  - simpl. by destruct q.
  - rewrite string_app_cons. simpl. by f_equal.
Qed.

Lemma slice_to_prefix (p q : string) :
  slice_to (p ++ q) (Z.of_nat (String.length p)) = Some p.
Proof.
  unfold slice_to. rewrite string_app_length.
  destruct (Z.leb_spec 0 (Z.of_nat (String.length p))); [|lia].
  destruct (Z.leb_spec (Z.of_nat (String.length p))
              (Z.of_nat (String.length p + String.length q))); [|lia].
  simpl. by rewrite Nat2Z.id, substring_prefix.
Qed.

Lemma strings_Contains_app_slash (a b : string) :
  strings_Contains (a ++ b) "/" = strings_Contains a "/" || strings_Contains b "/".
Proof.
  induction a as [|x a IH].
  - change ("" ++ b) with b. cbn. by destruct b.
  - rewrite string_app_cons, !strings_Contains_cons, IH.
    assert (String.prefix "/" (String x (a ++ b)) = String.prefix "/" (String x a))
      as ->.
    { apply eq_true_iff_eq. rewrite !prefix_true_iff.
      split; intros [q Hq]; rewrite string_app_cons in Hq;
        injection Hq as -> _; by eexists. }
    by rewrite orb_assoc.
Qed.

(** X1.  [ErrNotFound] answers [true] exactly when the text of the error
    has "not found" somewhere in it. *)
Theorem ErrNotFound_spec (err : error) :
  ErrNotFound err = true <-> exists p q, Error err = p ++ "not found" ++ q.
Proof. apply strings_Contains_spec. Qed.

(** X2.  The classifier looks at the whole text, so it survives
    [errors.Wrap]: a not-found error stays one under any tag, and any error
    becomes one under a tag that contains "not found". *)
Theorem ErrNotFound_Wrap (err : error) (tag : string) :
  ErrNotFound err = true \/ strings_Contains tag "not found" = true ->
  ErrNotFound (Wrap err tag) = true.
Proof.
  unfold ErrNotFound. rewrite !strings_Contains_spec. cbn [Error].
  intros [(p & q & ->)|(p & q & ->)].
  - exists (tag ++ ": " ++ p), q. by rewrite !string_app_assoc.
  - exists p, (q ++ ": " ++ Error err). by rewrite !string_app_assoc.
Qed.

Lemma ErrNotFound_Wrap_witness :
  (ErrNotFound (New "cluster a.example.com not found") = true \/
   strings_Contains errGetCluster "not found" = true) /\
  ErrNotFound (Wrap (New "cluster a.example.com not found") errGetCluster) = true.
Proof.
  assert (H : ErrNotFound (New "cluster a.example.com not found") = true \/
              strings_Contains errGetCluster "not found" = true)
    by (left; reflexivity).
  split; [exact H|]. exact (ErrNotFound_Wrap _ _ H).
Defined.

(** ** [GetKopsClientset] and [Connect] *)

(** The config base always has a slash, and is cut at its last one. *)
Lemma registryPathOf_split (stateBucket clusterName domain : string) :
  exists path rest,
    registryPathOf stateBucket clusterName domain = Some path /\
    stateBucket ++ "/" ++ clusterName ++ "." ++ domain = path ++ "/" ++ rest /\
    strings_Contains rest "/" = false.
Proof.
  unfold registryPathOf. cbv zeta.
  destruct (last_slash_split (stateBucket ++ "/" ++ clusterName ++ "." ++ domain))
    as [Hno|(p & q & Heq & Hq)].
  - assert (strings_Contains (stateBucket ++ "/" ++ clusterName ++ "." ++ domain) "/"
            = true) as Hyes; [|congruence].
    apply strings_Contains_spec. by eexists _, _.
  - exists p, q. rewrite Heq. split; [|done].
    rewrite (strings_LastIndex_last_slash p q Hq). apply slice_to_prefix.
Qed.

(** X3.  [GetKopsClientset] never slices out of range: the config base it
    builds always has a slash.  The registry path is the config base up to
    its last slash, which is the state bucket when neither the cluster name
    nor the domain has a slash in it. *)
Theorem registryPathOf_last_slash (stateBucket clusterName domain : string) :
  (exists path rest,
     registryPathOf stateBucket clusterName domain = Some path /\
     stateBucket ++ "/" ++ clusterName ++ "." ++ domain = path ++ "/" ++ rest /\
     strings_Contains rest "/" = false) /\
  (strings_Contains clusterName "/" = false ->
   strings_Contains domain "/" = false ->
   registryPathOf stateBucket clusterName domain = Some stateBucket).
Proof.
  split; [apply registryPathOf_split|].
  unfold registryPathOf. cbv zeta. intros Hname Hdomain.
  rewrite (strings_LastIndex_last_slash stateBucket (clusterName ++ "." ++ domain)).
  - apply slice_to_prefix.
  - rewrite !strings_Contains_app_slash, Hname, Hdomain. done.
Qed.

Lemma registryPathOf_last_slash_witness :
  strings_Contains "a" "/" = false /\
  strings_Contains "example.com" "/" = false /\
  registryPathOf "s3://state" "a" "example.com" = Some "s3://state".
Proof.
  split; [reflexivity|]. split; [reflexivity|].
  exact (proj2 (registryPathOf_last_slash "s3://state" "a" "example.com")
           eq_refl eq_refl).
Defined.

(** X4.  [Connect] never panics.  A resource of another kind is refused
    before anything is called; a failure to track the provider configuration
    is returned under its tag and no client is built; otherwise the client
    factory is called once, with the registry path of the resource, and its
    failure is returned under the client tag. *)
Theorem Connect_steps {ClusterRest IGRest Clientset Backend : Type}
    (Track : Managed ClusterRest IGRest -> Backend -> option error * Backend)
    (Factory_Clientset : FactoryOptions -> Backend -> result Clientset * Backend)
    (mg : Managed ClusterRest IGRest) (b : Backend) :
  exists r b' steps,
    Connect Track Factory_Clientset mg b = Some (r, b', steps) /\
    match mg with
    | MgOther => r = Err (New errNotKops) /\ steps = [] /\ b' = b
    | MgKops cr =>
        match (Track mg b).1 with
        | Some err =>
            r = Err (Wrap err errTrackPCUsage) /\ steps = [CalledTrack] /\
            b' = (Track mg b).2
        | None =>
            exists path rest,
              kp_StateBucket (ForProvider cr) ++ "/" ++ ExternalName cr ++ "."
                ++ kp_Domain (ForProvider cr) = path ++ "/" ++ rest /\
              strings_Contains rest "/" = false /\
              steps = [CalledTrack; CalledClientset {| RegistryPath := path |}] /\
              b' = (Factory_Clientset {| RegistryPath := path |} (Track mg b).2).2 /\
              r = match (Factory_Clientset {| RegistryPath := path |} (Track mg b).2).1 with
                  | Ok kopsClientset => Ok kopsClientset
                  | Err err => Err (Wrap err errNewClient)
                  end
        end
    end.
Proof.
  destruct mg as [cr|]; simpl; [|by eexists _, _, _].
  destruct (Track (MgKops cr) b) as [[err|] b1]; simpl; [by eexists _, _, _|].
  destruct (registryPathOf_split (kp_StateBucket (ForProvider cr))
              (ExternalName cr) (kp_Domain (ForProvider cr)))
    as (path & rest & Hpath & Hsplit & Hrest).
  unfold GetKopsClientset. rewrite Hpath. simpl.
  destruct (Factory_Clientset {| RegistryPath := path |} b1) as [[c|err] b2] eqn:HF;
    simpl; eexists _, _, _; (split; [done|]); exists path, rest; by rewrite HF.
Qed.

(** ** The validator reduction, continued *)

(** X5.  The flag and the messages of [EvaluateKopsValidationResult] agree:
    the flag is [true] exactly when there is no message, and there is one
    message per failure and one per node whose status is "False". *)
Theorem EvaluateKopsValidationResult_messages (validation : ValidationCluster) :
  ((EvaluateKopsValidationResult validation).1 = true <->
     (EvaluateKopsValidationResult validation).2 = []) /\
  length (EvaluateKopsValidationResult validation).2 =
    (length (Failures validation) +
     length (filter (fun n => Status n = ConditionFalse) (Nodes validation)))%nat.
Proof.
  destruct validation as [failures nodes]. unfold EvaluateKopsValidationResult.
  simpl. destruct failures as [|f fs]; simpl; rewrite checkNodes_closed_form; simpl.
  - rewrite length_map. split; [|done].
    induction nodes as [|n ns IH]; simpl; [done|].
    destruct (String.eqb_spec (Status n) ConditionFalse) as [Heq|Hne].
    + rewrite filter_cons_True by done. simpl. split; discriminate.
    + by rewrite filter_cons_False by done.
  - rewrite appendFailures_app. simpl. rewrite length_app, !length_map.
    split; [|done]. split; discriminate.
Qed.

(** ** The state comparator, continued *)

Section ComparatorMore.
Context {ClusterRest IGRest : Type}.
Context `{!EqDecision ClusterRest, !EqDecision IGRest}.

Implicit Types (h : gmap loc (ClusterSpec ClusterRest)).
Implicit Types (s o n : ClusterSpec ClusterRest).
Implicit Types (old : list (InstanceGroupSpec IGRest)).
Implicit Types (new : InstanceGroupList IGRest).

Lemma clearDerived_idemp n : clearDerived (clearDerived n) = clearDerived n.
Proof. done. Qed.

(** X6.  A second call of [ClusterResourceUpToDate] on the heap the first
    one left gives the same answer and changes nothing more. *)
Theorem ClusterResourceUpToDate_idempotent h (old new : loc) (b : bool) h' :
  ClusterResourceUpToDate old new h = Some (b, h') ->
  ClusterResourceUpToDate old new h' = Some (b, h').
Proof.
  intros Hrun. destruct (h !! new) as [n|] eqn:Hn.
  - rewrite (ClusterResourceUpToDate_eval h old new n Hn) in Hrun.
    destruct (<[new:=clearDerived n]> h !! old) as [o|] eqn:Ho; [|done].
    simpl in Hrun. injection Hrun as <- <-.
    rewrite (ClusterResourceUpToDate_eval _ old new (clearDerived n))
      by apply lookup_insert_eq.
    rewrite clearDerived_idemp, insert_insert_eq, Ho. done.
  - unfold ClusterResourceUpToDate in Hrun. by rewrite Hn in Hrun.
Qed.

(** X7.  Handed the same object twice, [ClusterResourceUpToDate] answers
    [true] and empties the two derived fields of that object. *)
Theorem ClusterResourceUpToDate_alias h (p : loc) s :
  h !! p = Some s ->
  ClusterResourceUpToDate p p h = Some (true, <[p := clearDerived s]> h).
Proof.
  intros Hs. rewrite (ClusterResourceUpToDate_eval h p p s Hs).
  rewrite lookup_insert_eq. simpl. unfold DeepEqual_ClusterSpec.
  by rewrite bool_decide_eq_true_2.
Qed.

(** X8.  The answer of [ClusterResourceUpToDate] does not depend on the
    config base and the master public name of the observed spec. *)
Theorem ClusterResourceUpToDate_derived_irrelevant h (old new : loc) n
    (configBase masterPublicName : string) :
  fst <$> ClusterResourceUpToDate old new
            (<[new := withDerived n configBase masterPublicName]> h) =
  fst <$> ClusterResourceUpToDate old new (<[new := n]> h).
Proof.
  rewrite (ClusterResourceUpToDate_eval _ old new
             (withDerived n configBase masterPublicName))
    by apply lookup_insert_eq.
  rewrite (ClusterResourceUpToDate_eval _ old new n) by apply lookup_insert_eq.
  rewrite !insert_insert_eq.
  change (clearDerived (withDerived n configBase masterPublicName))
    with (clearDerived n).
  by destruct (<[new:=clearDerived n]> h !! old).
Qed.

(** X9.  What [Create] stores is up to date with what was asked, derived
    fields apart: the spec of [CreateClusterSpec] compares equal to the
    desired spec exactly when the desired spec names no config base and no
    master public name of its own. *)
Theorem compareWithObserved_created (cr : Kops ClusterRest IGRest) :
  (compareWithObserved (kp_ClusterSpec (ForProvider cr))
     (cluster_Spec (CreateClusterSpec cr))).1 = true <->
  ConfigBase (kp_ClusterSpec (ForProvider cr)) = "" /\
  MasterPublicName (kp_ClusterSpec (ForProvider cr)) = "".
Proof.
  rewrite compareWithObserved_eval. simpl. unfold DeepEqual_ClusterSpec.
  rewrite bool_decide_eq_true.
  destruct (kp_ClusterSpec (ForProvider cr)) as [cb mpn r]. simpl.
  unfold clearDerived. simpl. split.
  - by intros [= -> ->].
  - by intros [-> ->].
Qed.

(** Against an empty observed list every desired list is up to date, and so
    is the empty desired list against anything. *)
Lemma InstanceGroupListResourceUpToDate_empty old new :
  InstanceGroupListResourceUpToDate old (mkInstanceGroupList []) = true /\
  InstanceGroupListResourceUpToDate [] new = true.
Proof.
  split; [|done]. apply InstanceGroupListResourceUpToDate_true.
  intros o n _ Hn. by apply elem_of_nil in Hn.
Qed.

(** X11.  Being up to date is inherited by sublists: dropping desired groups
    or observed groups never turns [true] into [false]. *)
Theorem InstanceGroupListResourceUpToDate_subset old old' new new' :
  old' ⊆ old ->
  Items new' ⊆ Items new ->
  InstanceGroupListResourceUpToDate old new = true ->
  InstanceGroupListResourceUpToDate old' new' = true.
Proof.
  rewrite !InstanceGroupListResourceUpToDate_true.
  intros Hold Hnew Hall o n Ho Hn. apply Hall; auto.
Qed.

(** X12.  The comparison splits over concatenation, on either side: a list
    is up to date exactly when its parts are. *)
Theorem InstanceGroupListResourceUpToDate_app old1 old2 new
    (items1 items2 : list (InstanceGroup IGRest)) :
  InstanceGroupListResourceUpToDate (old1 ++ old2) new =
    InstanceGroupListResourceUpToDate old1 new &&
    InstanceGroupListResourceUpToDate old2 new /\
  InstanceGroupListResourceUpToDate old1 (mkInstanceGroupList (items1 ++ items2)) =
    InstanceGroupListResourceUpToDate old1 (mkInstanceGroupList items1) &&
    InstanceGroupListResourceUpToDate old1 (mkInstanceGroupList items2).
Proof.
  split; apply eq_true_iff_eq; rewrite andb_true_iff,
    !InstanceGroupListResourceUpToDate_true; simpl.
  - split.
    + intros Hall. split; intros o n Ho; apply Hall; apply elem_of_app; auto.
    + intros [H1 H2] o n [Ho|Ho]%elem_of_app; auto.
  - split.
    + intros Hall. split; intros o n Ho Hn; apply Hall; auto;
        apply elem_of_app; auto.
    + intros [H1 H2] o n Ho [Hn|Hn]%elem_of_app; auto.
Qed.

(** X13.  The order of the groups does not matter, in either list. *)
Theorem InstanceGroupListResourceUpToDate_Permutation old old'
    (items items' : list (InstanceGroup IGRest)) :
  old ≡ₚ old' ->
  items ≡ₚ items' ->
  InstanceGroupListResourceUpToDate old (mkInstanceGroupList items) =
  InstanceGroupListResourceUpToDate old' (mkInstanceGroupList items').
Proof.
  intros Hold Hitems. apply eq_true_iff_eq.
  rewrite !InstanceGroupListResourceUpToDate_true. simpl.
  split; intros Hall o n Ho Hn; apply Hall.
  - by rewrite Hold.
  - by rewrite Hitems.
  - by rewrite <- Hold.
  - by rewrite <- Hitems.
Qed.

(** X14.  The groups [Create] stores are up to date with the desired list
    exactly when no two desired groups share a label and differ: two groups
    under one label, or two groups without any label, that are not equal
    are never up to date, not even right after their creation. *)
Theorem InstanceGroupListResourceUpToDate_created old :
  InstanceGroupListResourceUpToDate old
    (mkInstanceGroupList (CreateInstanceGroupSpec <$> old)) = true <->
  forall a b, a ∈ old -> b ∈ old -> igLabel a = igLabel b -> a = b.
Proof.
  rewrite InstanceGroupListResourceUpToDate_true. simpl. split.
  - intros Hall a b Ha Hb Hl.
    apply (Hall a (CreateInstanceGroupSpec b)); [done| |done].
    apply list_elem_of_fmap. by exists b.
  - intros Hall o n Ho Hn Hl.
    apply list_elem_of_fmap in Hn as (b & -> & Hb). simpl in *. auto.
Qed.

End ComparatorMore.

Lemma ClusterResourceUpToDate_idempotent_witness :
  exists b h',
    ClusterResourceUpToDate 0%nat 1%nat sampleHeap = Some (b, h') /\
    ClusterResourceUpToDate 0%nat 1%nat h' = Some (b, h').
Proof.
  eexists _, _.
  assert (Hrun : ClusterResourceUpToDate 0%nat 1%nat sampleHeap =
                   Some (true, <[1%nat := clearDerived (cluster_Spec storedCluster)]>
                                 sampleHeap)).
  { exact (ClusterResourceUpToDate_distinct sampleHeap 0%nat 1%nat
             sampleSpec (cluster_Spec storedCluster)
             ltac:(discriminate) eq_refl eq_refl). }
  split; [exact Hrun|].
  exact (ClusterResourceUpToDate_idempotent sampleHeap 0%nat 1%nat _ _ Hrun).
Defined.

Lemma ClusterResourceUpToDate_alias_witness :
  sampleHeap !! 1%nat = Some (cluster_Spec storedCluster) /\
  ClusterResourceUpToDate 1%nat 1%nat sampleHeap =
    Some (true, <[1%nat := clearDerived (cluster_Spec storedCluster)]> sampleHeap).
Proof.
  split; [reflexivity|].
  exact (ClusterResourceUpToDate_alias sampleHeap 1%nat _ eq_refl).
Defined.

Lemma InstanceGroupListResourceUpToDate_subset_witness :
  [nodesGroup] ⊆ [masterGroup; nodesGroup] /\
  Items (mkInstanceGroupList [CreateInstanceGroupSpec masterGroup]) ⊆ Items storedGroups /\
  InstanceGroupListResourceUpToDate [masterGroup; nodesGroup] storedGroups = true /\
  InstanceGroupListResourceUpToDate [nodesGroup]
    (mkInstanceGroupList [CreateInstanceGroupSpec masterGroup]) = true.
Proof.
  assert (H1 : [nodesGroup] ⊆ [masterGroup; nodesGroup])
    by (apply list_subseteq_cons; reflexivity).
  assert (H2 : Items (mkInstanceGroupList [CreateInstanceGroupSpec masterGroup])
                 ⊆ Items storedGroups)
    by (apply list_subseteq_skip, list_subseteq_nil).
  assert (H3 : InstanceGroupListResourceUpToDate [masterGroup; nodesGroup]
                 storedGroups = true) by (vm_compute; reflexivity).
  exact (conj H1 (conj H2 (conj H3
           (InstanceGroupListResourceUpToDate_subset _ _ _ _ H1 H2 H3)))).
Defined.

Lemma InstanceGroupListResourceUpToDate_Permutation_witness :
  [masterGroup; nodesGroup] ≡ₚ [nodesGroup; masterGroup] /\
  Items storedGroups ≡ₚ Items storedGroups /\
  InstanceGroupListResourceUpToDate [masterGroup; nodesGroup]
    (mkInstanceGroupList (Items storedGroups)) =
  InstanceGroupListResourceUpToDate [nodesGroup; masterGroup]
    (mkInstanceGroupList (Items storedGroups)).
Proof.
  assert (H1 : [masterGroup; nodesGroup] ≡ₚ [nodesGroup; masterGroup])
    by apply Permutation_swap.
  assert (H2 : Items storedGroups ≡ₚ Items storedGroups) by reflexivity.
  exact (conj H1 (conj H2
           (InstanceGroupListResourceUpToDate_Permutation _ _ _ _ H1 H2))).
Defined.

(** ** The credential issuer, the validator and the kubeconfig *)

Section ClientMore.
Context {ClusterRest IGRest : Type}.
Context `{!EqDecision ClusterRest, !EqDecision IGRest}.
Context `{Library} {Backend : Type}.
Variable env : Env ClusterRest IGRest Backend.

Implicit Types (cr : Kops ClusterRest IGRest) (b : Backend).
Implicit Types (s : Store ClusterRest IGRest Backend).

(** Every event of a concrete trace, one at a time. *)
Ltac each_event Hin :=
  repeat (apply elem_of_cons in Hin as [->|Hin]);
  try (apply elem_of_nil in Hin; contradiction).

(** X15.  Without a CA key set ([FindKeyset] answers nil without error)
    [GetKubeconfigFromKopsState] fails with "cannot find CA certificate"
    after its second call: no certificate is requested. *)
Theorem GetKubeconfigFromKopsState_CA_missing (kopsCluster : Cluster ClusterRest)
    (ttl : Duration) s (keyStore : KeyStore) (b1 b2 : Backend) :
  env _ (Clientset_KeyStore kopsCluster) (backend s) = (Ok keyStore, b1) ->
  env _ (FindKeyset keyStore CertificateIDCA) b1 = (Ok None, b2) ->
  let out := GetKubeconfigFromKopsState env kopsCluster ttl s in
  valueOf out = Err (New "cannot find CA certificate") /\
  eventsOf out =
    [Ev (Clientset_KeyStore kopsCluster) (Ok keyStore);
     Ev (FindKeyset keyStore CertificateIDCA) (Ok None)] /\
  omap issuedValidity (eventsOf out) = [].
Proof.
  intros Hks Hfind. unfold_client. simpl. rewrite Hks. simpl. rewrite Hfind. done.
Qed.

(** X16.  A configuration is returned only after all seven steps succeeded,
    in this order: key store, CA key set, CA bytes, a client certificate
    for "kops-operator" in the privileged group signed by the CA, its bytes,
    the bytes of its key, and the configuration built from exactly these
    with the server "https://api.<cluster name>". *)
Theorem GetKubeconfigFromKopsState_success (kopsCluster : Cluster ClusterRest)
    (ttl : Duration) s (config : rest_Config) :
  let out := GetKubeconfigFromKopsState env kopsCluster ttl s in
  valueOf out = Ok config ->
  exists keyStore keySet caCerts validity cert privateKey clientCert clientKey,
    eventsOf out =
      [Ev (Clientset_KeyStore kopsCluster) (Ok keyStore);
       Ev (FindKeyset keyStore CertificateIDCA) (Ok (Some keySet));
       Ev (ToCertificateBytes keySet) (Ok caCerts);
       Ev (IssueCert
             (mkIssueCertRequest CertificateIDCA "client"
                {| CommonName := "kops-operator";
                   Organization := [SystemPrivilegedGroup] |} validity)
             keyStore)
          (Ok (cert, privateKey));
       Ev (Certificate_AsBytes cert) (Ok clientCert);
       Ev (PrivateKey_AsBytes privateKey) (Ok clientKey);
       Ev (BuildRestConfig
             (mkBuilder (cluster_Name kopsCluster)
                ("https://api." ++ cluster_Name kopsCluster)
                caCerts clientCert clientKey))
          (Ok config)].
Proof.
  cbv zeta. run_client; intros [= <-]. by eexists _, _, _, _, _, _, _, _.
Qed.

(** X17.  An error of [ValidateKopsCluster] is "cannot find CA certificate"
    or carries the text of the failure of the call that stopped it, with
    "unexpected error creating validator: " in front when that call built
    the validator. *)
Theorem ValidateKopsCluster_failure (kopsCluster : Cluster ClusterRest)
    (igs : InstanceGroupList IGRest) (ttl : Duration) s (e : error) :
  let out := ValidateKopsCluster env kopsCluster igs ttl s in
  valueOf out = Err e ->
  e = New "cannot find CA certificate" \/
  exists err,
    last (eventsOf out) ≫= failure = Some err /\
    (Error e = Error err \/
     isValidatorConstruction <$> last (eventsOf out) = Some true /\
     Error e = "unexpected error creating validator: " ++ Error err).
Proof.
  cbv zeta. run_client; intros [= <-]; try (by left); right; eexists;
    (split; [reflexivity|]); auto.
Qed.



(** ** The four operations, continued *)

Ltac run_observe :=
  run_client; try (rewrite compareWithObserved_eval; simpl).

(** X19.  [Observe] only reads: none of its calls creates, updates or
    deletes anything, whatever the managed resource and the answers. *)
Theorem Observe_never_writes s :
  Forall (fun ev => isWrite ev = false) (eventsOf (Observe env s)).
Proof.
  destruct s as [[cr|] b]; run_observe; repeat constructor.
Qed.

(** X20.  Credentials are not kept from one step to the next: an [Observe]
    that finds the resource has requested two client certificates, one to
    validate and one for the kubeconfig, and no [Observe] requests more. *)
Theorem Observe_certificates s :
  let out := Observe env s in
  (length (omap issuedValidity (eventsOf out)) <= 2)%nat /\
  (ResourceExists (valueOf out).1 = true ->
   length (omap issuedValidity (eventsOf out)) = 2%nat).
Proof.
  cbv zeta. destruct s as [[cr|] b]; run_observe;
    (split; [simpl; lia|]); simpl; done.
Qed.

(** X21.  A cluster whose validation result does not pass the reduction is
    an error, not a resource to update: [Observe] reports it as not
    existing, with the messages of the reduction under the evaluation tag,
    writes no kubeconfig and leaves the managed resource as it was. *)
Theorem Observe_validation_failure cr b ev (validation : ValidationCluster) :
  let out := Observe env (mkStore (MgKops cr) b) in
  ev ∈ eventsOf out ->
  validationOf ev = Some validation ->
  (EvaluateKopsValidationResult validation).1 = false ->
  valueOf out =
    (mkObservation false false None,
     Some (Wrap (New (formatMessages (EvaluateKopsValidationResult validation).2))
             errEvaluateClusterState)) /\
  omap writtenConfig (eventsOf out) = [] /\
  managed (storeOf out) = MgKops cr.
Proof.
  cbv zeta.
  remember (EvaluateKopsValidationResult validation) as verdict eqn:Hverdict.
  run_observe; intros Hin Hv Hfalse; each_event Hin;
    simpl in Hv; try discriminate; injection Hv as <-;
    rewrite Hev in Hverdict; subst verdict; simpl in *; try discriminate; done.
Qed.

(** The loop of [Update]: the groups are updated in list order, each once,
    up to and including the first one that fails. *)
Lemma updateInstanceGroups_trace (cluster : Cluster ClusterRest)
    (igs : list (InstanceGroupSpec IGRest)) s :
  let out := updateInstanceGroups env cluster igs s in
  managed (storeOf out) = managed s /\
  match valueOf out with
  | None =>
      exists updated,
        length updated = length igs /\
        eventsOf out = groupUpdates cluster igs updated
  | Some e =>
      exists k ig err updated,
        igs !! k = Some ig /\ length updated = k /\
        e = Wrap err errNewInstanceGroupState /\
        eventsOf out =
          (groupUpdates cluster (take k igs) updated ++
           [Ev (InstanceGroups_Update cluster (CreateInstanceGroupSpec ig)) (Err err)])%list
  end.
Proof.
  cbv zeta. unfold valueOf, storeOf, eventsOf.
  revert s. induction igs as [|ig igs IH]; intros s.
  - simpl. split; [done|]. by exists [].
  - simpl. unfold bind, call.
    destruct (env _ _ (backend s)) as [[a|err] b'] eqn:Hcall; simpl.
    + specialize (IH (mkStore (managed s) b')).
      destruct (updateInstanceGroups env cluster igs (mkStore _ _)) as [[v s1] t1].
      simpl in *. destruct IH as [Hm IH]. split; [done|]. destruct v as [e|].
      * destruct IH as (k & ig' & err & updated & Hk & Hlen & -> & ->).
        exists (S k), ig', err, (a :: updated). simpl. rewrite Hlen. done.
      * destruct IH as (updated & Hlen & ->). exists (a :: updated). simpl.
        by rewrite Hlen.
    + split; [done|]. by exists 0%nat, ig, err, [].
Qed.

Ltac run_updates :=
  match goal with
  | |- context [updateInstanceGroups ?env ?cluster ?igs ?st] =>
      let Hrun := fresh "Hrun" in
      let Hm := fresh "Hm" in
      pose proof (updateInstanceGroups_trace cluster igs st) as Hrun;
      cbv zeta in Hrun; unfold valueOf, storeOf, eventsOf in Hrun;
      destruct (updateInstanceGroups env cluster igs st) as [[[?e|] ?s] ?t];
      simpl in Hrun; destruct Hrun as [Hm Hrun]; simpl
  end.

Ltac run_creations :=
  match goal with
  | |- context [createInstanceGroups ?env ?cluster ?igs ?st] =>
      let Hrun := fresh "Hrun" in
      let Hm := fresh "Hm" in
      pose proof (createInstanceGroups_run env cluster igs st) as Hrun;
      cbv zeta in Hrun; unfold valueOf, storeOf, eventsOf in Hrun;
      destruct (createInstanceGroups env cluster igs st) as [[[?e|] ?s] ?t];
      simpl in Hrun; destruct Hrun as [Hm Hrun]; simpl
  end.

Lemma groupUpdates_only_update (cluster : Cluster ClusterRest)
    (igs : list (InstanceGroupSpec IGRest)) (updated : list (InstanceGroup IGRest)) :
  Forall (fun ev => isCreateCluster ev = false /\
                    isCreateInstanceGroup ev = false /\ isDelete ev = false)
    (groupUpdates cluster igs updated) /\
  List.filter isUpdateCluster (groupUpdates cluster igs updated) = [].
Proof.
  revert updated. induction igs as [|ig igs IH]; intros [|a updated]; simpl;
    try by (split; [constructor|]).
  destruct (IH updated). split; [by constructor|done].
Qed.

(** X22.  [Update] where the cloud assignment fails stops there: the error
    comes back under the assignment tag and the backend was not written to. *)
Theorem Update_assignment_failure cr b (cloud : Cloud) (b1 b2 : Backend)
    (err : error) (cluster : Cluster ClusterRest) :
  env _ (BuildCloud (CreateClusterSpec cr)) b = (Ok cloud, b1) ->
  env _ (PerformAssignments (CreateClusterSpec cr) cloud) b1 = (Some err, cluster, b2) ->
  let out := Update env (mkStore (MgKops cr) b) in
  (valueOf out).2 = Some (Wrap err errNewCloudAssignment) /\
  eventsOf out =
    [Ev (BuildCloud (CreateClusterSpec cr)) (Ok cloud);
     Ev (PerformAssignments (CreateClusterSpec cr) cloud) (Some err, cluster)] /\
  List.filter isWrite (eventsOf out) = [].
Proof.
  intros Hcloud Hassign. unfold_client. simpl. rewrite Hcloud. simpl.
  rewrite Hassign. done.
Qed.

(** X23.  [Update] never creates or deletes anything, calls the
    cluster-update at most once, and never touches the managed resource:
    no condition is set, whether it succeeds or not. *)
Theorem Update_frame cr b :
  let out := Update env (mkStore (MgKops cr) b) in
  managed (storeOf out) = MgKops cr /\
  Forall (fun ev => isCreateCluster ev = false /\
                    isCreateInstanceGroup ev = false /\ isDelete ev = false)
    (eventsOf out) /\
  (length (List.filter isUpdateCluster (eventsOf out)) <= 1)%nat.
Proof.
  cbv zeta. unfold_client; simpl. do 4 (answer_call; try by repeat constructor).
  run_updates.
  - destruct Hrun as (k & ig & e' & updated & _ & _ & -> & ->).
    destruct (groupUpdates_only_update a1 (take k (kp_InstanceGroupSpec (ForProvider cr)))
                updated) as [Hall Hnone].
    split; [done|]. split.
    + repeat constructor. rewrite app_nil_r. apply Forall_app. split; [done|].
      by repeat constructor.
    + rewrite app_nil_r, List.filter_app, Hnone. simpl. lia.
  - destruct Hrun as (updated & _ & ->).
    destruct (groupUpdates_only_update a1 (kp_InstanceGroupSpec (ForProvider cr))
                updated) as [Hall Hnone].
    repeat answer_call;
      (split; [done|]; split;
       [ repeat constructor; apply Forall_app; split; [done|]; by repeat constructor
       | rewrite List.filter_app, Hnone; simpl; lia ]).
Qed.

(** X24.  An [Update] that returns no error has made these calls, in this
    order: the cloud of the cluster rebuilt from the desired spec, the
    assignment on it, its status, the cluster-update with that status, one
    update per desired group in list order against the cluster the backend
    answered with, and the provisioning run on that cluster and cloud with
    the direct target. *)
Theorem Update_success cr b :
  let out := Update env (mkStore (MgKops cr) b) in
  (valueOf out).2 = None ->
  exists cloud assigned status clusterToUpdate updated,
    length updated = length (kp_InstanceGroupSpec (ForProvider cr)) /\
    eventsOf out =
      ([Ev (BuildCloud (CreateClusterSpec cr)) (Ok cloud);
        Ev (PerformAssignments (CreateClusterSpec cr) cloud) (None, assigned);
        Ev (FindClusterStatus cloud assigned) (Ok status);
        Ev (UpdateCluster assigned status) (Ok clusterToUpdate)] ++
       groupUpdates clusterToUpdate (kp_InstanceGroupSpec (ForProvider cr)) updated ++
       [Ev (ApplyClusterCmd_Run (mkApplyClusterCmd cloud clusterToUpdate TargetDirect))
           None])%list.
Proof.
  cbv zeta. unfold_client; simpl. do 4 (answer_call; try discriminate).
  run_updates.
  - discriminate.
  - destruct Hrun as (updated & Hlen & ->).
    repeat answer_call; try discriminate. intros _.
    by eexists _, _, _, _, updated.
Qed.

(** X25.  A [Create] that returns no error has created the cluster, every
    desired group in list order, built the cloud of the created cluster,
    run the assignment, and run the provisioning on the cluster as the
    assignment left it, with the direct target. *)
Theorem Create_success cr b :
  let out := Create env (mkStore (MgKops cr) b) in
  (valueOf out).2 = None ->
  exists cluster created cloud assigned,
    length created = length (kp_InstanceGroupSpec (ForProvider cr)) /\
    eventsOf out =
      (Ev (CreateCluster (CreateClusterSpec cr)) (Ok cluster) ::
       groupCreations cluster (kp_InstanceGroupSpec (ForProvider cr)) created ++
       [Ev (BuildCloud cluster) (Ok cloud);
        Ev (PerformAssignments cluster cloud) (None, assigned);
        Ev (ApplyClusterCmd_Run (mkApplyClusterCmd cloud assigned TargetDirect))
           None])%list.
Proof.
  cbv zeta. unfold_client; simpl. answer_call; try discriminate.
  run_creations.
  - destruct Hrun as (k & ig & e' & created & _ & _ & -> & _). discriminate.
  - destruct Hrun as (created & Hlen & ->).
    repeat answer_call; try discriminate. intros _.
    by eexists _, created, _, _.
Qed.

(** X26.  [Delete] needs the cluster to be there: when fetching it fails,
    be it with "not found", the failure is returned under the cluster-fetch
    tag and nothing else is called. *)
Theorem Delete_requires_cluster cr b (err : error) (b' : Backend) :
  env _ (GetCluster (clusterIdentity cr)) b = (Err err, b') ->
  let out := Delete env (mkStore (MgKops cr) b) in
  valueOf out = Some (Wrap err errGetCluster) /\
  eventsOf out = [Ev (GetCluster (clusterIdentity cr)) (Err err)].
Proof.
  intros Hget. unfold_client. simpl. rewrite Hget. done.
Qed.

(** X27.  [Delete] creates and updates nothing, and deletes the cluster
    object last: when that call is made at all, the cluster was fetched, its
    cloud built, its resources listed for the region of the resource and
    deleted, all with success. *)
Theorem Delete_order cr b :
  let out := Delete env (mkStore (MgKops cr) b) in
  Forall (fun ev => isCreateCluster ev = false /\ isCreateInstanceGroup ev = false /\
                    isUpdateCluster ev = false /\ isUpdateInstanceGroup ev = false)
    (eventsOf out) /\
  (List.filter isDeleteCluster (eventsOf out) = [] \/
   exists cluster cloud resources answer,
     eventsOf out =
       [Ev (GetCluster (clusterIdentity cr)) (Ok cluster);
        Ev (BuildCloud cluster) (Ok cloud);
        Ev (ListResources cloud cluster (kp_Region (ForProvider cr))) (Ok resources);
        Ev (DeleteResources cloud resources) None;
        Ev (DeleteCluster cluster) answer]).
Proof.
  cbv zeta. run_client; (split; [by repeat constructor|]);
    first [ by left | right; by eexists _, _, _, _ ].
Qed.

End ClientMore.

(** ** The further properties at work on the scripted environment *)

#[local] Existing Instance sampleLibrary.

Lemma GetKubeconfigFromKopsState_CA_missing_witness :
  let out := GetKubeconfigFromKopsState noCAEnv storedCluster 0 sampleStore in
  valueOf out = Err (New "cannot find CA certificate") /\
  eventsOf out =
    [Ev (Clientset_KeyStore storedCluster) (Ok tt);
     Ev (FindKeyset tt CertificateIDCA) (Ok None)] /\
  omap issuedValidity (eventsOf out) = [].
Proof.
  exact (GetKubeconfigFromKopsState_CA_missing noCAEnv storedCluster 0 sampleStore
           tt 1%nat 2%nat eq_refl eq_refl).
Defined.

Lemma GetKubeconfigFromKopsState_success_witness :
  let out := GetKubeconfigFromKopsState healthyEnv storedCluster 0 sampleStore in
  valueOf out = Ok (mkRestConfig "https://api.a.example.com" [] [] []) /\
  length (eventsOf out) = 7%nat /\
  omap issuedValidity (eventsOf out) = [18 * Hour].
Proof.
  cbv zeta. split; [reflexivity|].
  destruct (GetKubeconfigFromKopsState_success healthyEnv storedCluster 0 sampleStore
              (mkRestConfig "https://api.a.example.com" [] [] []) eq_refl)
    as (keyStore & keySet & caCerts & validity & cert & privateKey & clientCert
        & clientKey & Hevents).
  split; [by rewrite Hevents|]. reflexivity.
Defined.

Lemma ValidateKopsCluster_failure_witness :
  let out :=
    ValidateKopsCluster (failingEnv 9 (New "no such host")) storedCluster
      storedGroups 0 sampleStore in
  valueOf out = Err (New "unexpected error creating validator: no such host") /\
  (New "unexpected error creating validator: no such host"
     = New "cannot find CA certificate" \/
   exists err,
     last (eventsOf out) ≫= failure = Some err /\
     (Error (New "unexpected error creating validator: no such host") = Error err \/
      isValidatorConstruction <$> last (eventsOf out) = Some true /\
      Error (New "unexpected error creating validator: no such host") =
        "unexpected error creating validator: " ++ Error err)).
Proof.
  cbv zeta. split; [reflexivity|].
  exact (ValidateKopsCluster_failure (failingEnv 9 (New "no such host"))
           storedCluster storedGroups 0 sampleStore _ eq_refl).
Defined.

Lemma Observe_validation_failure_witness :
  let out := Observe degradedEnv sampleStore in
  valueOf out =
    (mkObservation false false None,
     Some (Wrap
             (New "[machine i-0abc has not yet joined cluster node ip-172-20-32-2 condition is False]")
             errEvaluateClusterState)) /\
  omap writtenConfig (eventsOf out) = [] /\
  managed (storeOf out) = MgKops sampleKops.
Proof.
  refine (Observe_validation_failure degradedEnv sampleKops 0%nat
            (Ev (Validate tt) (Ok degraded)) degraded _ eq_refl eq_refl).
  vm_compute. do 12 apply list_elem_of_further. apply list_elem_of_here.
Defined.

Lemma Update_assignment_failure_witness :
  let out := Update (failingEnv 1 (New "no free CIDR")) sampleStore in
  (valueOf out).2 = Some (Wrap (New "no free CIDR") errNewCloudAssignment) /\
  eventsOf out =
    [Ev (BuildCloud (CreateClusterSpec sampleKops)) (Ok tt);
     Ev (PerformAssignments (CreateClusterSpec sampleKops) tt)
        (Some (New "no free CIDR"), CreateClusterSpec sampleKops)] /\
  List.filter isWrite (eventsOf out) = [].
Proof.
  exact (Update_assignment_failure (failingEnv 1 (New "no free CIDR")) sampleKops
           0%nat tt 1%nat 2%nat (New "no free CIDR") (CreateClusterSpec sampleKops)
           eq_refl eq_refl).
Defined.

Lemma Update_success_witness :
  let out := Update healthyEnv sampleStore in
  (valueOf out).2 = None /\
  length (eventsOf out) = 7%nat /\
  List.filter isWrite (eventsOf out) =
    [Ev (UpdateCluster (CreateClusterSpec sampleKops) tt) (Ok (CreateClusterSpec sampleKops));
     Ev (InstanceGroups_Update (CreateClusterSpec sampleKops)
           (CreateInstanceGroupSpec masterGroup)) (Ok (CreateInstanceGroupSpec masterGroup));
     Ev (InstanceGroups_Update (CreateClusterSpec sampleKops)
           (CreateInstanceGroupSpec nodesGroup)) (Ok (CreateInstanceGroupSpec nodesGroup))].
Proof.
  cbv zeta. split; [reflexivity|].
  destruct (Update_success healthyEnv sampleKops 0%nat eq_refl)
    as (cloud & assigned & status & clusterToUpdate & updated & Hlen & Hevents).
  split; [|reflexivity]. unfold sampleStore.
  rewrite Hevents, !length_app. unfold groupUpdates.
  rewrite length_zip_with, Hlen. reflexivity.
Defined.

Lemma Create_success_witness :
  let out := Create healthyEnv sampleStore in
  (valueOf out).2 = None /\
  length (eventsOf out) = 6%nat /\
  conditionsOf (managed (storeOf out)) = [Creating].
Proof.
  cbv zeta. split; [reflexivity|].
  destruct (Create_success healthyEnv sampleKops 0%nat eq_refl)
    as (cluster & created & cloud & assigned & Hlen & Hevents).
  split; [|reflexivity]. unfold sampleStore.
  rewrite Hevents. cbn [length]. rewrite length_app. unfold groupCreations.
  rewrite length_zip_with, Hlen. reflexivity.
Defined.

Lemma Delete_requires_cluster_witness :
  let out := Delete (failingEnv 0 (New "cluster a.example.com not found")) sampleStore in
  valueOf out = Some (Wrap (New "cluster a.example.com not found") errGetCluster) /\
  eventsOf out =
    [Ev (GetCluster "a.example.com") (Err (New "cluster a.example.com not found"))].
Proof.
  exact (Delete_requires_cluster (failingEnv 0 (New "cluster a.example.com not found"))
           sampleKops 0%nat (New "cluster a.example.com not found") 1%nat eq_refl).
Defined.

Lemma Observe_errors_tagged_witness :
  (valueOf (Observe (failingEnv 1 (New "boom")) sampleStore)).2 =
    Some (Wrap (New "boom") errGetInstanceGroup) /\
  tagged (Wrap (New "boom") errGetInstanceGroup) = true.
Proof.
  split; [reflexivity|].
  exact (Observe_errors_tagged (failingEnv 1 (New "boom")) sampleKops 0%nat _ eq_refl).
Defined.

Lemma Create_errors_tagged_witness :
  (valueOf (Create (failingEnv 2 (New "boom")) sampleStore)).2 =
    Some (Wrap (New "boom") errNewInstanceGroupState) /\
  tagged (Wrap (New "boom") errNewInstanceGroupState) = true.
Proof.
  split; [reflexivity|].
  exact (Create_errors_tagged (failingEnv 2 (New "boom")) sampleKops 0%nat _ eq_refl).
Defined.

Lemma Update_errors_tagged_witness :
  (valueOf (Update (failingEnv 6 (New "boom")) sampleStore)).2 =
    Some (Wrap (New "boom") errUpdateCluster) /\
  tagged (Wrap (New "boom") errUpdateCluster) = true.
Proof.
  split; [reflexivity|].
  exact (Update_errors_tagged (failingEnv 6 (New "boom")) sampleKops 0%nat _ eq_refl).
Defined.

Lemma Delete_errors_witness :
  valueOf (Delete (failingEnv 3 (New "boom")) sampleStore) =
    Some (Wrap (New "boom") errDeleteResources) /\
  (tagged (Wrap (New "boom") errDeleteResources) = true \/
   exists cloud cluster,
     last (eventsOf (Delete (failingEnv 3 (New "boom")) sampleStore)) =
       Some (Ev (ListResources cloud cluster (kp_Region (ForProvider sampleKops)))
               (Err (Wrap (New "boom") errDeleteResources)))).
Proof.
  split; [reflexivity|].
  exact (Delete_errors (failingEnv 3 (New "boom")) sampleKops 0%nat _ eq_refl).
Defined.
